(** * flash_all.py: the ESP32-Doom flashing script

    A shallow embedding of [src/flash_all.py].  The script reads the process
    environment, probes the file system, spawns one external process and
    prints a report, so it is modelled in a small monad that threads the
    environment (a finite map from names to values), records every effect in
    a trace, and propagates Python exceptions.  Everything outside the
    script (the argument parser, the file system, the child process) is
    gathered in a record [World].

    The script is embedded twice.  The first embedding takes [print] to
    succeed and the output of the child to be text.  The second, in module
    [Codec], is the same script where [print] fails on a line the standard
    output cannot encode and [subprocess.run] fails on output it cannot
    decode.  The last theorem of the file relates the two.  Signals such as
    a keyboard interrupt are left out of both. *)

From Stdlib Require Import Ascii String ZArith.
From stdpp Require Import base strings list gmap.

Local Open Scope string_scope.
Local Open Scope list_scope.
Local Open Scope Z_scope.

(** ** Python strings *)

(** Strings are kept as their UTF-8 bytes. *)
Definition nl : string := String "010"%char "".
(** U+2713 CHECK MARK and U+2717 BALLOT X. *)
Definition check_mark : string :=
  String "226"%char (String "156"%char (String "147"%char "")).
Definition ballot_x : string :=
  String "226"%char (String "156"%char (String "151"%char "")).

(** [bool(s)] for a [str]: only the empty string is falsy. *)
Definition truthy (s : string) : bool :=
  match s with
  | EmptyString => false
  | String _ _ => true
  end.

(** [sep.join(l)] *)
Definition join (sep : string) (l : list string) : string := String.concat sep l.

(** ** Effects, exceptions and the outside world *)

Inductive event : Type :=
  | Print (line : string)                 (* print(line) *)
  | PathExists (path : string)            (* os.path.exists(path) *)
  | SetEnv (name value : string)          (* os.environ[name] = value *)
  | SubprocessRun (cmd : list string).    (* subprocess.run(cmd, ...) *)

Inductive exn : Type :=
  | CalledProcessError (cmd : list string) (returncode : Z) (stdout stderr : string)
  | SystemExit (code : Z)
  | OtherException (name : string).

(** What [subprocess.run(cmd, capture_output=True, text=True)] meets: the
    child ran to completion, or no child could be run or read (for instance
    [FileNotFoundError] when the tool is not installed). *)
Inductive run_outcome : Type :=
  | Exited (returncode : Z) (stdout stderr : string)
  | RunRaised (name : string).

(** What [parser.parse_args()] yields on the process's command line: a
    namespace whose [port] is [None] when neither [--port] nor [-p] was
    given, or an exit of the parser itself (usage error, [--help]). *)
Inductive parse_outcome : Type :=
  | Namespace (port : option string)
  | ParserExit (status : Z).

(** One run of the script meets one world.  A run probes each path and
    spawns each command at most once, so plain functions lose nothing. *)
Record World : Type := {
  parse_args_outcome : parse_outcome;
  os_path_exists : string -> bool;
  child : list string -> run_outcome
}.

(** ** The monad *)

Record res (A : Type) : Type := Res {
  value : A + exn;
  environ_out : gmap string string;
  trace : list event
}.
Arguments Res {A} _ _ _.
Arguments value {A} _.
Arguments environ_out {A} _.
Arguments trace {A} _.

Definition M (A : Type) : Type := gmap string string -> res A.

Definition ret {A} (a : A) : M A := fun env => Res (inl a) env [].

Definition raise {A} (e : exn) : M A := fun env => Res (inr e) env [].

Definition bind {A B} (m : M A) (k : A -> M B) : M B := fun env =>
  match m env with
  | Res (inl a) env1 t1 =>
      match k a env1 with
      | Res v env2 t2 => Res v env2 (t1 ++ t2)
      end
  | Res (inr e) env1 t1 => Res (inr e) env1 t1
  end.

(** [try: body / except <the exceptions h accepts>: h e]; an exception that
    [h] does not accept propagates. *)
Definition try_except {A} (body : M A) (h : exn -> option (M A)) : M A := fun env =>
  match body env with
  | Res (inl a) env1 t1 => Res (inl a) env1 t1
  | Res (inr e) env1 t1 =>
      match h e with
      | Some handler =>
          match handler env1 with
          | Res v env2 t2 => Res v env2 (t1 ++ t2)
          end
      | None => Res (inr e) env1 t1
      end
  end.

Definition emit (e : event) : M unit := fun env => Res (inl tt) env [e].

Declare Scope py_scope.
Delimit Scope py_scope with py.
Notation "x <- c1 ;; c2" := (bind c1 (fun x => c2))
  (at level 100, c1 at next level, right associativity) : py_scope.
Notation "c1 ;; c2" := (bind c1 (fun _ => c2))
  (at level 100, right associativity) : py_scope.
Local Open Scope py_scope.

(** ** Library calls the script makes *)

(** [print(s)], taken to succeed; [Codec.print] below can fail. *)
Definition print (s : string) : M unit := emit (Print s).

(** [os.environ.get(name, default)] *)
Definition getenv (env : gmap string string) (name default : string) : string :=
  match env !! name with
  | Some v => v
  | None => default
  end.

Definition environ_get (name default : string) : M string := fun env =>
  Res (inl (getenv env name default)) env [].

(** [os.environ[name] = v] *)
Definition environ_set (name v : string) : M unit := fun env =>
  Res (inl tt) (<[name := v]> env) [SetEnv name v].

(** [sys.exit(code)] *)
Definition sys_exit {A} (code : Z) : M A := raise (SystemExit code).

Section Script.

(** [str(e)] for [e = CalledProcessError(returncode, cmd)], a function of the
    Python library that the script only interpolates into a message. *)
Variable str_CalledProcessError : list string -> Z -> string.

Variable w : World.

(** [os.path.exists(path)] *)
Definition path_exists (path : string) : M bool :=
  emit (PathExists path) ;; ret (os_path_exists w path).

(** [subprocess.run(cmd, check=True, capture_output=True, text=True)] *)
Definition subprocess_run_check (cmd : list string) : M unit := fun env =>
  match child w cmd with
  | Exited rc out err =>
      if rc =? 0 then Res (inl tt) env [SubprocessRun cmd]
      else Res (inr (CalledProcessError cmd rc out err)) env [SubprocessRun cmd]
  | RunRaised name => Res (inr (OtherException name)) env [SubprocessRun cmd]
  end.

Definition parse_args : M (option string) :=
  match parse_args_outcome w with
  | Namespace port => ret port
  | ParserExit status => sys_exit status
  end.

(** ** The script *)

Definition run_command (cmd : list string) (description : string) : M bool :=
  print (nl +:+ description +:+ "...") ;;
  print ("Command: " +:+ join " " cmd) ;;
  try_except
    (subprocess_run_check cmd ;;
     print (check_mark +:+ " " +:+ description +:+ " completed successfully") ;;
     ret true)
    (fun e =>
       match e with
       | CalledProcessError c rc out err => Some (
           print (ballot_x +:+ " Error during " +:+ description +:+ ": "
                  +:+ str_CalledProcessError c rc) ;;
           print ("stdout: " +:+ out) ;;
           print ("stderr: " +:+ err) ;;
           ret false)
       | _ => None
       end).

Definition bootloader_bin : string := "build/bootloader/bootloader.bin".
Definition partition_table_bin : string := "build/partition_table/partition-table.bin".
Definition app_bin : string := "build/esp32-doom.bin".
Definition storage_bin : string := "build/storage.bin".
Definition wad_bin : string := "build/wad_partition.bin".

Definition required_files : list (string * string) :=
  [ (bootloader_bin, "Bootloader");
    (partition_table_bin, "Partition table");
    (app_bin, "Application");
    (storage_bin, "SPIFFS storage");
    (wad_bin, "WAD file") ].

(** The [for file_path, description in required_files] loop of [flash_all]:
    [Some b] when the loop body returned [b] from the function, [None] when
    the loop ran to its end. *)
Fixpoint check_files (files : list (string * string)) : M (option bool) :=
  match files with
  | [] => ret None
  | (file_path, description) :: rest =>
      present <- path_exists file_path ;;
      if negb present then
        print ("Error: " +:+ description +:+ " file not found: " +:+ file_path) ;;
        print "Please run 'idf.py build' first" ;;
        ret (Some false)
      else check_files rest
  end.

(** The command list built at lines 63-77. *)
Definition flash_cmd (espport espbaud espflashmode espflashfreq espflashsize : string)
  : list string :=
  [ "esptool.py";
    "--chip"; "esp32";
    "--port"; espport;
    "--baud"; espbaud;
    "write_flash";
    "--flash_mode"; espflashmode;
    "--flash_freq"; espflashfreq;
    "--flash_size"; espflashsize;
    "0x1000"; bootloader_bin;
    "0x8000"; partition_table_bin;
    "0x10000"; app_bin;
    "0x188000"; wad_bin;
    "0x388000"; storage_bin ].

Definition flash_all : M bool :=
  espport <- environ_get "ESPPORT" "" ;;
  espbaud <- environ_get "ESPBAUD" "115200" ;;
  espflashmode <- environ_get "ESPFLASHMODE" "dio" ;;
  espflashfreq <- environ_get "ESPFLASHFREQ" "40m" ;;
  espflashsize <- environ_get "ESPFLASHSIZE" "4MB" ;;
  if negb (truthy espport) then
    print "Error: ESPPORT environment variable not set!" ;;
    print "Please set ESPPORT to your device port (e.g., /dev/ttyUSB0)" ;;
    print "You can also set it via: export ESPPORT=/dev/ttyUSB0" ;;
    ret false
  else
    returned <- check_files required_files ;;
    match returned with
    | Some b => ret b
    | None =>
        run_command
          (flash_cmd espport espbaud espflashmode espflashfreq espflashsize)
          "Flashing all partitions"
    end.

(** Lines 87-89: [if args.port: os.environ['ESPPORT'] = args.port]. *)
Definition override_port (args_port : option string) : M unit :=
  match args_port with
  | Some port => if truthy port then environ_set "ESPPORT" port else ret tt
  | None => ret tt
  end.

Definition main : M unit :=
  args_port <- parse_args ;;
  override_port args_port ;;
  print "ESP32-Doom Flash Script" ;;
  print "=======================" ;;
  success <- flash_all ;;
  if success then
    print (nl +:+ check_mark +:+ " All partitions flashed successfully!") ;;
    print "The ESP32 should now boot with:" ;;
    print "- Application firmware" ;;
    print "- WAD file in the wad partition" ;;
    print "- index.html in the SPIFFS storage partition"
  else
    print (nl +:+ ballot_x +:+ " Flashing failed!") ;;
    sys_exit 1.

End Script.

(** ** The process *)

(** Exit status of the interpreter after running [main()] as the script
    does: 0 when [main] returns, the code of a [SystemExit], 1 after any
    other uncaught exception. *)
Definition exit_status {A} (r : res A) : Z :=
  match value r with
  | inl _ => 0
  | inr (SystemExit code) => code
  | inr _ => 1
  end.

(** ** What a trace shows *)

Definition commands (t : list event) : list (list string) :=
  omap (fun e => match e with SubprocessRun cmd => Some cmd | _ => None end) t.

Definition probes (t : list event) : list string :=
  omap (fun e => match e with PathExists p => Some p | _ => None end) t.

Definition env_writes (t : list event) : list (string * string) :=
  omap (fun e => match e with SetEnv k v => Some (k, v) | _ => None end) t.

(** The events of a trace up to and including the first spawn. *)
Fixpoint up_to_spawn (t : list event) : list event :=
  match t with
  | [] => []
  | SubprocessRun cmd :: _ => [SubprocessRun cmd]
  | e :: t' => e :: up_to_spawn t'
  end.

(** The three reports of [flash_all] and [run_command], as printed. *)
Definition missing_port_report : list event :=
  [ Print "Error: ESPPORT environment variable not set!";
    Print "Please set ESPPORT to your device port (e.g., /dev/ttyUSB0)";
    Print "You can also set it via: export ESPPORT=/dev/ttyUSB0" ].

Definition missing_file_report (file_path description : string) : list event :=
  [ Print ("Error: " +:+ description +:+ " file not found: " +:+ file_path);
    Print "Please run 'idf.py build' first" ].

Definition banner : list event :=
  [ Print "ESP32-Doom Flash Script"; Print "=======================" ].

Definition success_report : list event :=
  [ Print (nl +:+ check_mark +:+ " All partitions flashed successfully!");
    Print "The ESP32 should now boot with:";
    Print "- Application firmware";
    Print "- WAD file in the wad partition";
    Print "- index.html in the SPIFFS storage partition" ].

Definition failure_report : list event :=
  [ Print (nl +:+ ballot_x +:+ " Flashing failed!") ].

(** ** Results, reports and outcomes *)

(** [after t r]: the result [r] of a continuation, once [t] has happened. *)
Definition after {A} (t : list event) (r : res A) : res A :=
  Res (value r) (environ_out r) (t ++ trace r).

(** An artifact descriptor whose file exists, or does not. *)
Definition present (w : World) (f : string * string) : Prop :=
  os_path_exists w f.1 = true.
Definition absent (w : World) (f : string * string) : Prop :=
  os_path_exists w f.1 = false.

Definition announce (cmd : list string) (description : string) : list event :=
  [ Print (nl +:+ description +:+ "...");
    Print ("Command: " +:+ join " " cmd) ].

Definition completed_report (description : string) : list event :=
  [ Print (check_mark +:+ " " +:+ description +:+ " completed successfully") ].

Definition tool_failure_report (description message out err : string) : list event :=
  [ Print (ballot_x +:+ " Error during " +:+ description +:+ ": " +:+ message);
    Print ("stdout: " +:+ out);
    Print ("stderr: " +:+ err) ].

(** The command [flash_all] builds from the environment it is called in. *)
Definition command_of (env : gmap string string) : list string :=
  flash_cmd (getenv env "ESPPORT" "") (getenv env "ESPBAUD" "115200")
            (getenv env "ESPFLASHMODE" "dio") (getenv env "ESPFLASHFREQ" "40m")
            (getenv env "ESPFLASHSIZE" "4MB").

(** How [main] ends after [flash_all] has ended with [v]. *)
Definition verdict (v : bool + exn) : unit + exn :=
  match v with
  | inl true => inl tt
  | inl false => inr (SystemExit 1)
  | inr e => inr e
  end.

Definition closing (v : bool + exn) : list event :=
  match v with
  | inl true => success_report
  | inl false => failure_report
  | inr _ => []
  end.

(** How [run_command] ends once the child has answered. *)
Definition finish (str : list string -> Z -> string) (cmd : list string)
    (description : string) (env : gmap string string) (o : run_outcome) : res bool :=
  match o with
  | Exited rc out err =>
      if rc =? 0 then Res (inl true) env (completed_report description)
      else Res (inl false) env (tool_failure_report description (str cmd rc) out err)
  | RunRaised name => Res (inr (OtherException name)) env []
  end.

(** The environment [flash_all] is called in: the initial one after the
    override of lines 87-89. *)
Definition resolved_environ (port : option string) (env : gmap string string)
  : gmap string string :=
  environ_out (override_port port env).

Definition is_print (e : event) : Prop :=
  match e with
  | Print _ => True
  | _ => False
  end.

(** The five settings [flash_all] reads from the environment. *)
Definition config_names : list string :=
  [ "ESPPORT"; "ESPBAUD"; "ESPFLASHMODE"; "ESPFLASHFREQ"; "ESPFLASHSIZE" ].

(** Every way [flash_all] can end, with the effects of each. *)
Section Outcome.

Variable str : list string -> Z -> string.
Variable w : World.

Inductive flash_all_outcome (env : gmap string string) : res bool -> Prop :=
  | ends_no_port :
      getenv env "ESPPORT" "" = "" ->
      flash_all_outcome env (Res (inl false) env missing_port_report)
  | ends_missing_file pre p d post :
      getenv env "ESPPORT" "" <> "" ->
      required_files = pre ++ (p, d) :: post ->
      Forall (present w) pre ->
      os_path_exists w p = false ->
      flash_all_outcome env
        (Res (inl false) env
             ((PathExists <$> pre.*1) ++ PathExists p :: missing_file_report p d))
  | ends_flashed out err :
      getenv env "ESPPORT" "" <> "" ->
      Forall (present w) required_files ->
      child w (command_of env) = Exited 0 out err ->
      flash_all_outcome env
        (Res (inl true) env
             ((PathExists <$> required_files.*1)
              ++ announce (command_of env) "Flashing all partitions"
              ++ SubprocessRun (command_of env)
                 :: completed_report "Flashing all partitions"))
  | ends_tool_failed rc out err :
      getenv env "ESPPORT" "" <> "" ->
      Forall (present w) required_files ->
      child w (command_of env) = Exited rc out err ->
      rc <> 0 ->
      flash_all_outcome env
        (Res (inl false) env
             ((PathExists <$> required_files.*1)
              ++ announce (command_of env) "Flashing all partitions"
              ++ SubprocessRun (command_of env)
                 :: tool_failure_report "Flashing all partitions"
                      (str (command_of env) rc) out err))
  | ends_spawn_raised name :
      getenv env "ESPPORT" "" <> "" ->
      Forall (present w) required_files ->
      child w (command_of env) = RunRaised name ->
      flash_all_outcome env
        (Res (inr (OtherException name)) env
             ((PathExists <$> required_files.*1)
              ++ announce (command_of env) "Flashing all partitions"
              ++ [SubprocessRun (command_of env)])).

End Outcome.

(** ** The script where text must be encoded and decoded

    The definitions above take [print] to succeed and the output of the
    child to be text.  In Python, [print] raises [UnicodeEncodeError] when
    the standard output cannot encode the line (the script prints U+2713 and
    U+2717, and the command line with the port), and
    [subprocess.run(..., text=True)] raises [UnicodeDecodeError] when the
    output of the child is not text in the locale's encoding, whatever its
    exit status.  Module [Codec] is the same script with both. *)

(** [say enc lines env k]: print [lines] one after the other on a standard
    output that encodes the lines [enc] accepts, then go on as [k]. *)
Fixpoint say {A} (enc : string -> bool) (lines : list string)
    (env : gmap string string) (k : res A) : res A :=
  match lines with
  | [] => k
  | s :: rest =>
      if enc s then after [Print s] (say enc rest env k)
      else Res (inr (OtherException "UnicodeEncodeError")) env []
  end.

Module Codec.

(** What the child wrote to its standard output and standard error. *)
Inductive captured : Type :=
  | Text (out err : string)
  | Undecodable.

Inductive run_outcome : Type :=
  | Exited (returncode : Z) (output : captured)
  | NotRun (name : string).

Record Host : Type := {
  parse_args_outcome : parse_outcome;
  os_path_exists : string -> bool;
  child : list string -> run_outcome;
  (* the lines sys.stdout can encode *)
  stdout_encodes : string -> bool
}.

(** [print(s)] *)
Definition print (h : Host) (s : string) : M unit := fun env =>
  if stdout_encodes h s then Res (inl tt) env [Print s]
  else Res (inr (OtherException "UnicodeEncodeError")) env [].

Section Script.

Variable str_CalledProcessError : list string -> Z -> string.

Variable h : Host.

(** [os.path.exists(path)] *)
Definition path_exists (path : string) : M bool :=
  emit (PathExists path) ;; ret (os_path_exists h path).

(** [subprocess.run(cmd, check=True, capture_output=True, text=True)]: the
    output is decoded while it is read, before the status is checked. *)
Definition subprocess_run_check (cmd : list string) : M unit := fun env =>
  match child h cmd with
  | Exited rc (Text out err) =>
      if rc =? 0 then Res (inl tt) env [SubprocessRun cmd]
      else Res (inr (CalledProcessError cmd rc out err)) env [SubprocessRun cmd]
  | Exited rc Undecodable =>
      Res (inr (OtherException "UnicodeDecodeError")) env [SubprocessRun cmd]
  | NotRun name => Res (inr (OtherException name)) env [SubprocessRun cmd]
  end.

Definition parse_args : M (option string) :=
  match parse_args_outcome h with
  | Namespace port => ret port
  | ParserExit status => sys_exit status
  end.

Definition run_command (cmd : list string) (description : string) : M bool :=
  print h (nl +:+ description +:+ "...") ;;
  print h ("Command: " +:+ join " " cmd) ;;
  try_except
    (subprocess_run_check cmd ;;
     print h (check_mark +:+ " " +:+ description +:+ " completed successfully") ;;
     ret true)
    (fun e =>
       match e with
       | CalledProcessError c rc out err => Some (
           print h (ballot_x +:+ " Error during " +:+ description +:+ ": "
                    +:+ str_CalledProcessError c rc) ;;
           print h ("stdout: " +:+ out) ;;
           print h ("stderr: " +:+ err) ;;
           ret false)
       | _ => None
       end).

Fixpoint check_files (files : list (string * string)) : M (option bool) :=
  match files with
  | [] => ret None
  | (file_path, description) :: rest =>
      present <- path_exists file_path ;;
      if negb present then
        print h ("Error: " +:+ description +:+ " file not found: " +:+ file_path) ;;
        print h "Please run 'idf.py build' first" ;;
        ret (Some false)
      else check_files rest
  end.

Definition flash_all : M bool :=
  espport <- environ_get "ESPPORT" "" ;;
  espbaud <- environ_get "ESPBAUD" "115200" ;;
  espflashmode <- environ_get "ESPFLASHMODE" "dio" ;;
  espflashfreq <- environ_get "ESPFLASHFREQ" "40m" ;;
  espflashsize <- environ_get "ESPFLASHSIZE" "4MB" ;;
  if negb (truthy espport) then
    print h "Error: ESPPORT environment variable not set!" ;;
    print h "Please set ESPPORT to your device port (e.g., /dev/ttyUSB0)" ;;
    print h "You can also set it via: export ESPPORT=/dev/ttyUSB0" ;;
    ret false
  else
    returned <- check_files required_files ;;
    match returned with
    | Some b => ret b
    | None =>
        run_command
          (flash_cmd espport espbaud espflashmode espflashfreq espflashsize)
          "Flashing all partitions"
    end.

Definition main : M unit :=
  args_port <- parse_args ;;
  override_port args_port ;;
  print h "ESP32-Doom Flash Script" ;;
  print h "=======================" ;;
  success <- flash_all ;;
  if success then
    print h (nl +:+ check_mark +:+ " All partitions flashed successfully!") ;;
    print h "The ESP32 should now boot with:" ;;
    print h "- Application firmware" ;;
    print h "- WAD file in the wad partition" ;;
    print h "- index.html in the SPIFFS storage partition"
  else
    print h (nl +:+ ballot_x +:+ " Flashing failed!") ;;
    sys_exit 1.

End Script.

End Codec.

(** The lines of the script, by where they are printed. *)
Definition banner_lines : list string :=
  [ "ESP32-Doom Flash Script"; "=======================" ].

Definition announce_lines (cmd : list string) (description : string) : list string :=
  [ nl +:+ description +:+ "..."; "Command: " +:+ join " " cmd ].

Definition completed_line (description : string) : string :=
  check_mark +:+ " " +:+ description +:+ " completed successfully".

Definition tool_failure_lines (description message out err : string) : list string :=
  [ ballot_x +:+ " Error during " +:+ description +:+ ": " +:+ message;
    "stdout: " +:+ out;
    "stderr: " +:+ err ].

Definition missing_port_lines : list string :=
  [ "Error: ESPPORT environment variable not set!";
    "Please set ESPPORT to your device port (e.g., /dev/ttyUSB0)";
    "You can also set it via: export ESPPORT=/dev/ttyUSB0" ].

Definition missing_file_lines (file_path description : string) : list string :=
  [ "Error: " +:+ description +:+ " file not found: " +:+ file_path;
    "Please run 'idf.py build' first" ].

Definition success_lines : list string :=
  [ nl +:+ check_mark +:+ " All partitions flashed successfully!";
    "The ESP32 should now boot with:";
    "- Application firmware";
    "- WAD file in the wad partition";
    "- index.html in the SPIFFS storage partition" ].

Definition failure_line : string := nl +:+ ballot_x +:+ " Flashing failed!".

(** An artifact descriptor whose file exists on the host. *)
Definition here (h : Codec.Host) (f : string * string) : Prop :=
  Codec.os_path_exists h f.1 = true.

(** A standard output that encodes these lines. *)
Definition encodes (h : Codec.Host) (lines : list string) : Prop :=
  Forall (fun s => Codec.stdout_encodes h s = true) lines.


(** How [Codec.run_command] ends once the child has answered. *)
Definition codec_finish (str : list string -> Z -> string) (h : Codec.Host)
    (cmd : list string) (description : string) (env : gmap string string)
    (o : Codec.run_outcome) : res bool :=
  match o with
  | Codec.Exited rc (Codec.Text out err) =>
      if rc =? 0 then
        say (Codec.stdout_encodes h) [completed_line description] env
          (Res (inl true) env [])
      else
        say (Codec.stdout_encodes h)
          (tool_failure_lines description (str cmd rc) out err) env
          (Res (inl false) env [])
  | Codec.Exited rc Codec.Undecodable =>
      Res (inr (OtherException "UnicodeDecodeError")) env []
  | Codec.NotRun name => Res (inr (OtherException name)) env []
  end.

(** How [Codec.main] ends after [Codec.flash_all] has ended with [v]. *)
Definition codec_close (h : Codec.Host) (env : gmap string string)
    (v : bool + exn) : res unit :=
  match v with
  | inl true => say (Codec.stdout_encodes h) success_lines env (Res (inl tt) env [])
  | inl false =>
      say (Codec.stdout_encodes h) [failure_line] env (Res (inr (SystemExit 1)) env [])
  | inr e => Res (inr e) env []
  end.

(** ** Concrete runs *)

Definition plain_str : list string -> Z -> string :=
  fun _ rc => if rc <? 0 then "died" else "returned non-zero exit status".

Definition env_usb0 : gmap string string := {[ "ESPPORT" := "/dev/ttyUSB0" ]}.

(** Every artifact is built, the tool succeeds, [--port /dev/ttyUSB1]. *)
Definition world_flashes : World := {|
  parse_args_outcome := Namespace (Some "/dev/ttyUSB1");
  os_path_exists := fun _ => true;
  child := fun _ => Exited 0 "Hash of data verified." ""
|}.

(** No flag on the command line; the storage image has not been built. *)
Definition world_no_storage : World := {|
  parse_args_outcome := Namespace None;
  os_path_exists := fun p => negb (String.eqb p storage_bin);
  child := fun _ => Exited 0 "" ""
|}.

(** No flag on the command line; the tool fails with status 2. *)
Definition world_tool_fails : World := {|
  parse_args_outcome := Namespace None;
  os_path_exists := fun _ => true;
  child := fun _ => Exited 2 "Connecting..." "A fatal error occurred"
|}.

(** [--port ''] on the command line. *)
Definition world_empty_flag : World := {|
  parse_args_outcome := Namespace (Some "");
  os_path_exists := fun _ => true;
  child := fun _ => Exited 0 "" ""
|}.


(** Hosts for the script with encoding and decoding: no flag on the
    command line, every artifact built. *)
Definition host (o : Codec.run_outcome) (stdout : string -> bool) : Codec.Host := {|
  Codec.parse_args_outcome := Namespace None;
  Codec.os_path_exists := fun _ => true;
  Codec.child := fun _ => o;
  Codec.stdout_encodes := stdout
|}.

(** A standard output in UTF-8 encodes every line. *)
Definition utf8 : string -> bool := fun _ => true.

Definition tool_succeeds : Codec.run_outcome :=
  Codec.Exited 0 (Codec.Text "Hash of data verified." "").

Definition tool_fails : Codec.run_outcome :=
  Codec.Exited 2 (Codec.Text "Connecting..." "A fatal error occurred").



(** ** Equations of the monad *)

Lemma truthy_nonempty (s : string) : truthy s = true <-> s <> "".
Proof. destruct s; simpl; split; congruence. Qed.

Lemma after_nil {A} (r : res A) : after [] r = r.
Proof. by destruct r. Qed.

Lemma after_Res {A} t (v : A + exn) env t' : after t (Res v env t') = Res v env (t ++ t').
Proof. reflexivity. Qed.

Lemma bind_ok {A B} (m : M A) (k : A -> M B) env a env' t :
  m env = Res (inl a) env' t ->
  bind m k env = after t (k a env').
Proof. intros H. unfold bind. rewrite H. by destruct (k a env'). Qed.

Lemma bind_exn {A B} (m : M A) (k : A -> M B) env e env' t :
  m env = Res (inr e) env' t ->
  bind m k env = Res (inr e) env' t.
Proof. intros H. unfold bind. by rewrite H. Qed.

Lemma try_except_ok {A} (body : M A) h env a env' t :
  body env = Res (inl a) env' t ->
  try_except body h env = Res (inl a) env' t.
Proof. intros H. unfold try_except. by rewrite H. Qed.

Lemma try_except_caught {A} (body : M A) h env e env' t handler :
  body env = Res (inr e) env' t ->
  h e = Some handler ->
  try_except body h env = after t (handler env').
Proof. intros H Hh. unfold try_except. rewrite H, Hh. by destruct (handler env'). Qed.

Lemma try_except_uncaught {A} (body : M A) h env e env' t :
  body env = Res (inr e) env' t ->
  h e = None ->
  try_except body h env = Res (inr e) env' t.
Proof. intros H Hh. unfold try_except. by rewrite H, Hh. Qed.

Lemma bind_ret {A B} (a : A) (k : A -> M B) env : bind (ret a) k env = k a env.
Proof. rewrite (bind_ok _ _ _ a env []) by reflexivity. apply after_nil. Qed.

Lemma bind_print {B} (s : string) (k : unit -> M B) env :
  bind (print s) k env = after [Print s] (k tt env).
Proof. by apply bind_ok. Qed.

Lemma bind_environ_get {B} name default (k : string -> M B) env :
  bind (environ_get name default) k env = k (getenv env name default) env.
Proof.
  rewrite (bind_ok _ _ _ (getenv env name default) env []) by reflexivity.
  apply after_nil.
Qed.

(** ** The artifact check *)

Section Check.

Variable w : World.

Lemma path_exists_eq p env :
  path_exists w p env = Res (inl (os_path_exists w p)) env [PathExists p].
Proof. reflexivity. Qed.

Lemma check_files_cons p d rest env :
  check_files w ((p, d) :: rest) env =
    after [PathExists p]
      (if os_path_exists w p then check_files w rest env
       else Res (inl (Some false)) env (missing_file_report p d)).
Proof.
  cbn [check_files]. rewrite (bind_ok _ _ _ _ _ _ (path_exists_eq p env)).
  destruct (os_path_exists w p); cbn [negb]; [reflexivity |].
  rewrite !bind_print, !after_Res. reflexivity.
Qed.

Lemma check_files_present files env :
  Forall (present w) files ->
  check_files w files env = Res (inl None) env (PathExists <$> files.*1).
Proof.
  induction 1 as [| [p d] rest Hp _ IH]; [reflexivity |].
  unfold present in Hp; cbn in Hp.
  rewrite check_files_cons, Hp, IH. reflexivity.
Qed.

Lemma check_files_missing pre p d post env :
  Forall (present w) pre ->
  os_path_exists w p = false ->
  check_files w (pre ++ (p, d) :: post) env =
    Res (inl (Some false)) env
        ((PathExists <$> pre.*1) ++ PathExists p :: missing_file_report p d).
Proof.
  intros Hpre Hp. induction Hpre as [| [q e] rest Hq _ IH]; cbn [app].
  - rewrite check_files_cons, Hp. reflexivity.
  - unfold present in Hq; cbn in Hq.
    rewrite check_files_cons, Hq, IH. reflexivity.
Qed.

(** A list with an absent file splits at its first absent file. *)
Lemma first_absent files :
  Exists (absent w) files ->
  exists pre p d post,
    files = pre ++ (p, d) :: post /\ Forall (present w) pre /\ os_path_exists w p = false.
Proof.
  induction files as [| [q e] rest IH]; intros Hex.
  - inversion Hex.
  - destruct (os_path_exists w q) eqn:Hq.
    + assert (Hrest : Exists (absent w) rest).
      { inversion Hex as [? ? Habs | ? ? Hr]; subst; [| exact Hr].
        unfold absent in Habs; simpl in Habs. congruence. }
      destruct (IH Hrest) as (pre & p & d & post & -> & Hpre & Hp).
      exists ((q, e) :: pre), p, d, post. repeat split; auto.
    + exists [], q, e, rest. repeat split; auto.
Qed.

End Check.

(** ** The spawn, the orchestration and the entry point, case by case *)

Section Run.

Variable str : list string -> Z -> string.
Variable w : World.

Lemma run_command_eq cmd d env :
  run_command str w cmd d env =
    after (announce cmd d ++ [SubprocessRun cmd]) (finish str cmd d env (child w cmd)).
Proof.
  unfold run_command, finish. rewrite !bind_print.
  set (body := bind (subprocess_run_check w cmd) _).
  set (h := fun e : exn => _).
  destruct (child w cmd) as [rc out err | name] eqn:Hchild; [destruct (rc =? 0) eqn:Hrc |].
  - assert (Hrun : subprocess_run_check w cmd env = Res (inl tt) env [SubprocessRun cmd])
      by (unfold subprocess_run_check; by rewrite Hchild, Hrc).
    assert (Hbody : body env = Res (inl true) env (SubprocessRun cmd :: completed_report d)).
    { subst body. rewrite (bind_ok _ _ _ _ _ _ Hrun), bind_print. reflexivity. }
    rewrite (try_except_ok _ h _ _ _ _ Hbody). reflexivity.
  - assert (Hrun : subprocess_run_check w cmd env =
                   Res (inr (CalledProcessError cmd rc out err)) env [SubprocessRun cmd])
      by (unfold subprocess_run_check; by rewrite Hchild, Hrc).
    assert (Hbody : body env =
                    Res (inr (CalledProcessError cmd rc out err)) env [SubprocessRun cmd]).
    { subst body. by rewrite (bind_exn _ _ _ _ _ _ Hrun). }
    rewrite (try_except_caught _ h _ _ _ _ _ Hbody eq_refl).
    rewrite !bind_print. reflexivity.
  - assert (Hrun : subprocess_run_check w cmd env =
                   Res (inr (OtherException name)) env [SubprocessRun cmd])
      by (unfold subprocess_run_check; by rewrite Hchild).
    assert (Hbody : body env = Res (inr (OtherException name)) env [SubprocessRun cmd]).
    { subst body. by rewrite (bind_exn _ _ _ _ _ _ Hrun). }
    rewrite (try_except_uncaught _ h _ _ _ _ Hbody eq_refl). reflexivity.
Qed.

Lemma run_command_ok cmd d env out err :
  child w cmd = Exited 0 out err ->
  run_command str w cmd d env =
    Res (inl true) env (announce cmd d ++ SubprocessRun cmd :: completed_report d).
Proof. intros H. rewrite run_command_eq, H. reflexivity. Qed.

Lemma run_command_failed cmd d env rc out err :
  child w cmd = Exited rc out err -> rc <> 0 ->
  run_command str w cmd d env =
    Res (inl false) env
        (announce cmd d ++ SubprocessRun cmd :: tool_failure_report d (str cmd rc) out err).
Proof.
  intros H Hrc. apply Z.eqb_neq in Hrc. rewrite run_command_eq, H. unfold finish.
  rewrite Hrc. reflexivity.
Qed.

Lemma run_command_raised cmd d env name :
  child w cmd = RunRaised name ->
  run_command str w cmd d env =
    Res (inr (OtherException name)) env (announce cmd d ++ [SubprocessRun cmd]).
Proof. intros H. rewrite run_command_eq, H. reflexivity. Qed.

(** [flash_all] once the five settings are read. *)
Lemma flash_all_eq env :
  flash_all str w env =
    if truthy (getenv env "ESPPORT" "") then
      bind (check_files w required_files)
           (fun returned =>
              match returned with
              | Some b => ret b
              | None => run_command str w (command_of env) "Flashing all partitions"
              end) env
    else Res (inl false) env missing_port_report.
Proof.
  unfold flash_all. rewrite !bind_environ_get.
  destruct (truthy (getenv env "ESPPORT" "")); cbn [negb]; [reflexivity |].
  rewrite !bind_print. reflexivity.
Qed.

Lemma flash_all_no_port env :
  getenv env "ESPPORT" "" = "" ->
  flash_all str w env = Res (inl false) env missing_port_report.
Proof. intros H. rewrite flash_all_eq, H. reflexivity. Qed.

Lemma flash_all_missing env pre p d post :
  getenv env "ESPPORT" "" <> "" ->
  required_files = pre ++ (p, d) :: post ->
  Forall (present w) pre ->
  os_path_exists w p = false ->
  flash_all str w env =
    Res (inl false) env ((PathExists <$> pre.*1) ++ PathExists p :: missing_file_report p d).
Proof.
  intros Hport Hsplit Hpre Hp. apply truthy_nonempty in Hport.
  rewrite flash_all_eq, Hport, Hsplit.
  rewrite (bind_ok _ _ _ _ _ _ (check_files_missing w pre p d post env Hpre Hp)).
  unfold ret. rewrite after_Res, app_nil_r. reflexivity.
Qed.

Lemma flash_all_spawn env :
  getenv env "ESPPORT" "" <> "" ->
  Forall (present w) required_files ->
  flash_all str w env =
    after (PathExists <$> required_files.*1)
      (run_command str w (command_of env) "Flashing all partitions" env).
Proof.
  intros Hport Hall. apply truthy_nonempty in Hport.
  rewrite flash_all_eq, Hport.
  rewrite (bind_ok _ _ _ _ _ _ (check_files_present w required_files env Hall)).
  reflexivity.
Qed.

Lemma flash_all_validated env :
  getenv env "ESPPORT" "" <> "" ->
  Forall (present w) required_files ->
  flash_all str w env =
    after ((PathExists <$> required_files.*1)
           ++ announce (command_of env) "Flashing all partitions"
           ++ [SubprocessRun (command_of env)])
      (finish str (command_of env) "Flashing all partitions" env
         (child w (command_of env))).
Proof.
  intros Hport Hall. rewrite (flash_all_spawn env Hport Hall), run_command_eq.
  unfold after. cbn [value environ_out trace]. by rewrite <- !app_assoc.
Qed.

Lemma override_port_eq port env :
  override_port port env =
    match port with
    | Some (String a s) =>
        Res (inl tt) (<["ESPPORT" := String a s]> env) [SetEnv "ESPPORT" (String a s)]
    | _ => Res (inl tt) env []
    end.
Proof. destruct port as [[| a s] |]; reflexivity. Qed.

Lemma main_parser_exit env status :
  parse_args_outcome w = ParserExit status ->
  main str w env = Res (inr (SystemExit status)) env [].
Proof.
  intros H. unfold main, parse_args. rewrite H. reflexivity.
Qed.

Lemma main_parsed env port :
  parse_args_outcome w = Namespace port ->
  let r0 := override_port port env in
  let r := flash_all str w (environ_out r0) in
  main str w env =
    Res (verdict (value r)) (environ_out r)
        (trace r0 ++ banner ++ trace r ++ closing (value r)).
Proof.
  intros H r0 r. unfold main, parse_args. rewrite H, bind_ret.
  assert (H0 : override_port port env = Res (inl tt) (environ_out r0) (trace r0)).
  { subst r0. rewrite override_port_eq. by destruct port as [[| a s] |]. }
  rewrite (bind_ok _ _ _ _ _ _ H0), !bind_print.
  subst r. destruct (flash_all str w (environ_out r0)) as [[[|] | e] env' t] eqn:Hr.
  - rewrite (bind_ok _ _ _ true env' t Hr), !bind_print. reflexivity.
  - rewrite (bind_ok _ _ _ false env' t Hr), !bind_print.
    unfold sys_exit, raise, after. cbn. reflexivity.
  - rewrite (bind_exn _ _ _ e env' t Hr). cbn. rewrite ?app_nil_r. reflexivity.
Qed.

End Run.

(** ** Reading traces *)

Lemma commands_app (a b : list event) : commands (a ++ b) = commands a ++ commands b.
Proof. apply omap_app. Qed.

Lemma commands_spawn (cmd : list string) (t : list event) :
  commands (SubprocessRun cmd :: t) = cmd :: commands t.
Proof. reflexivity. Qed.

Lemma probes_app (a b : list event) : probes (a ++ b) = probes a ++ probes b.
Proof. apply omap_app. Qed.

Lemma probes_announce cmd d : probes (announce cmd d) = [].
Proof. reflexivity. Qed.

Lemma commands_probing (l : list string) : commands (PathExists <$> l) = [].
Proof. induction l; [reflexivity | assumption]. Qed.

Lemma env_writes_probing (l : list string) : env_writes (PathExists <$> l) = [].
Proof. induction l; [reflexivity | assumption]. Qed.

Lemma probes_probing (l : list string) : probes (PathExists <$> l) = l.
Proof. induction l as [| p l IH]; [reflexivity |]. cbn. unfold probes in IH. by rewrite IH. Qed.

Ltac read_trace :=
  unfold commands, env_writes, probes;
  rewrite ?omap_app;
  fold commands; fold env_writes; fold probes;
  rewrite ?commands_probing, ?env_writes_probing, ?probes_probing;
  cbn.

(** ** Every way [flash_all] can end *)

Section Outcomes.

Variable str : list string -> Z -> string.
Variable w : World.

Lemma present_or_absent (files : list (string * string)) :
  Forall (present w) files \/ Exists (absent w) files.
Proof.
  induction files as [| [p d] rest [IH | IH]].
  - left. constructor.
  - destruct (os_path_exists w p) eqn:Hp.
    + left. constructor; assumption.
    + right. constructor 1. exact Hp.
  - right. constructor 2. exact IH.
Qed.

Lemma flash_all_ends env : flash_all_outcome str w env (flash_all str w env).
Proof.
  destruct (decide (getenv env "ESPPORT" "" = "")) as [Hport | Hport].
  { rewrite flash_all_no_port by exact Hport. by constructor. }
  destruct (present_or_absent required_files) as [Hall | Hex].
  2: { destruct (first_absent w _ Hex) as (pre & p & d & post & Hsplit & Hpre & Hp).
       rewrite (flash_all_missing str w env pre p d post) by assumption.
       by econstructor. }
  rewrite flash_all_spawn by assumption.
  destruct (child w (command_of env)) as [rc out err | name] eqn:Hchild.
  - destruct (decide (rc = 0)) as [-> | Hrc].
    + rewrite (run_command_ok str w _ _ _ out err) by exact Hchild.
      by eapply ends_flashed.
    + rewrite (run_command_failed str w _ _ _ rc out err) by assumption.
      by eapply ends_tool_failed.
  - rewrite (run_command_raised str w _ _ _ name) by exact Hchild.
    by eapply ends_spawn_raised.
Qed.

Lemma flash_all_environ env : environ_out (flash_all str w env) = env.
Proof. destruct (flash_all_ends env); reflexivity. Qed.

Lemma flash_all_env_writes env : env_writes (trace (flash_all str w env)) = [].
Proof. destruct (flash_all_ends env); cbn [trace]; read_trace; reflexivity. Qed.

Lemma flash_all_commands env :
  commands (trace (flash_all str w env)) = [] \/
  commands (trace (flash_all str w env)) = [command_of env].
Proof.
  destruct (flash_all_ends env); cbn [trace]; read_trace; auto.
Qed.

End Outcomes.

(** ** The run as a whole *)

Lemma resolved_environ_eq port env :
  resolved_environ port env =
    match port with
    | Some (String a s) => <["ESPPORT" := String a s]> env
    | _ => env
    end.
Proof. unfold resolved_environ. rewrite override_port_eq. by destruct port as [[| a s] |]. Qed.

Lemma commands_closing v : commands (closing v) = [].
Proof. by destruct v as [[|] | e]. Qed.

Lemma probes_closing v : probes (closing v) = [].
Proof. by destruct v as [[|] | e]. Qed.

Lemma env_writes_closing v : env_writes (closing v) = [].
Proof. by destruct v as [[|] | e]. Qed.

Lemma commands_override port env : commands (trace (override_port port env)) = [].
Proof. rewrite override_port_eq. by destruct port as [[| a s] |]. Qed.

Lemma probes_override port env : probes (trace (override_port port env)) = [].
Proof. rewrite override_port_eq. by destruct port as [[| a s] |]. Qed.

Lemma present_paths w :
  Forall (fun p => os_path_exists w p = true) required_files.*1 <->
  Forall (present w) required_files.
Proof. unfold present. by rewrite Forall_fmap. Qed.

Lemma present_member w pre p d post :
  Forall (present w) (pre ++ (p, d) :: post) -> os_path_exists w p = true.
Proof.
  intros H. apply Forall_app in H as [_ H]. by inversion H.
Qed.

Section Entry.

Variable str : list string -> Z -> string.
Variable w : World.

Lemma main_commands env port :
  parse_args_outcome w = Namespace port ->
  commands (trace (main str w env)) =
    commands (trace (flash_all str w (resolved_environ port env))).
Proof.
  intros H. rewrite (main_parsed str w env port H). cbn [trace].
  unfold commands. rewrite !omap_app. fold commands.
  rewrite commands_override, commands_closing. cbn. by rewrite app_nil_r.
Qed.

Lemma main_probes env port :
  parse_args_outcome w = Namespace port ->
  probes (trace (main str w env)) =
    probes (trace (flash_all str w (resolved_environ port env))).
Proof.
  intros H. rewrite (main_parsed str w env port H). cbn [trace].
  unfold probes. rewrite !omap_app. fold probes.
  rewrite probes_override, probes_closing. cbn. by rewrite app_nil_r.
Qed.

Lemma main_env_writes env port :
  parse_args_outcome w = Namespace port ->
  env_writes (trace (main str w env)) = env_writes (trace (override_port port env)).
Proof.
  intros H. rewrite (main_parsed str w env port H). cbn [trace].
  unfold env_writes. rewrite !omap_app. fold env_writes.
  rewrite flash_all_env_writes, env_writes_closing. cbn. by rewrite app_nil_r.
Qed.

Lemma main_environ env port :
  parse_args_outcome w = Namespace port ->
  environ_out (main str w env) = resolved_environ port env.
Proof.
  intros H. rewrite (main_parsed str w env port H). cbn [environ_out].
  apply flash_all_environ.
Qed.

Lemma main_exit_status env port :
  parse_args_outcome w = Namespace port ->
  exit_status (main str w env) =
    match value (flash_all str w (resolved_environ port env)) with
    | inl true => 0
    | inl false => 1
    | inr (SystemExit code) => code
    | inr _ => 1
    end.
Proof.
  intros H. rewrite (main_parsed str w env port H). unfold exit_status. cbn [value].
  fold (resolved_environ port env).
  by destruct (value (flash_all str w (resolved_environ port env))) as [[|] | []].
Qed.

(** A missing port ends every run the same way. *)
Lemma main_no_port env port :
  parse_args_outcome w = Namespace port ->
  getenv (resolved_environ port env) "ESPPORT" "" = "" ->
  main str w env =
    Res (inr (SystemExit 1)) env (banner ++ missing_port_report ++ failure_report).
Proof.
  intros H Hport. rewrite (main_parsed str w env port H).
  fold (resolved_environ port env).
  rewrite (flash_all_no_port str w _ Hport). cbn [value environ_out trace verdict closing].
  revert Hport. rewrite resolved_environ_eq, override_port_eq.
  destruct port as [[| a s] |]; try reflexivity.
  unfold getenv. rewrite lookup_insert_eq. discriminate.
Qed.

(** An absent artifact ends the run before any spawn. *)
Lemma missing_files_end env port :
  parse_args_outcome w = Namespace port ->
  getenv (resolved_environ port env) "ESPPORT" "" <> "" ->
  Exists (absent w) required_files ->
  commands (trace (main str w env)) = [] /\ exit_status (main str w env) = 1.
Proof.
  intros Hparse Hport Hex.
  destruct (first_absent w _ Hex) as (pre & p & d & post & Hsplit & Hpre & Hp).
  rewrite (main_commands env port Hparse), (main_exit_status env port Hparse),
    (flash_all_missing str w _ pre p d post Hport Hsplit Hpre Hp).
  cbn [trace value]. read_trace. done.
Qed.

(** A run that spawns has parsed its arguments, resolved a port and found
    every artifact. *)
Lemma spawn_validated env :
  commands (trace (main str w env)) <> [] ->
  exists port,
    parse_args_outcome w = Namespace port /\
    getenv (resolved_environ port env) "ESPPORT" "" <> "" /\
    Forall (present w) required_files.
Proof.
  intros Hspawn.
  destruct (parse_args_outcome w) as [port | status] eqn:Hparse.
  2: { by rewrite (main_parser_exit str w env status Hparse) in Hspawn. }
  exists port. split; [reflexivity |].
  rewrite (main_commands env port Hparse) in Hspawn.
  destruct (flash_all_ends str w (resolved_environ port env))
    as [Hno | pre p d post Hne Hsplit Hpre Habs | out err Hne Hall _
        | rc out err Hne Hall _ _ | name Hne Hall _];
    cbn [trace] in Hspawn; try (split; assumption).
  - by cbn in Hspawn.
  - exfalso. apply Hspawn. read_trace. reflexivity.
Qed.

End Entry.

(** ** The flash layout in the command *)

(** C1. When the port resolved after the override is not empty and the five
    artifact files exist, the run spawns exactly one command, the one
    [flash_all] builds: the tool, chip, port and baud rate, [write_flash] and
    the three flash parameters, followed by exactly the pairs
    0x1000/bootloader, 0x8000/partition table, 0x10000/application,
    0x188000/WAD and 0x388000/storage, in that order. *)
Theorem flash_all_command_layout str w env port :
  parse_args_outcome w = Namespace port ->
  getenv (resolved_environ port env) "ESPPORT" "" <> "" ->
  Forall (fun p => os_path_exists w p = true)
         [bootloader_bin; partition_table_bin; app_bin; wad_bin; storage_bin] ->
  let e := resolved_environ port env in
  let cmd :=
    [ "esptool.py"; "--chip"; "esp32";
      "--port"; getenv e "ESPPORT" "";
      "--baud"; getenv e "ESPBAUD" "115200";
      "write_flash";
      "--flash_mode"; getenv e "ESPFLASHMODE" "dio";
      "--flash_freq"; getenv e "ESPFLASHFREQ" "40m";
      "--flash_size"; getenv e "ESPFLASHSIZE" "4MB" ]
    ++ concat ((fun '(offset, file) => [offset; file]) <$>
                 [ ("0x1000", bootloader_bin);
                   ("0x8000", partition_table_bin);
                   ("0x10000", app_bin);
                   ("0x188000", wad_bin);
                   ("0x388000", storage_bin) ]) in
  commands (trace (flash_all str w e)) = [cmd] /\
  commands (trace (main str w env)) = [cmd].
Proof.
  intros Hparse Hport Hfiles e cmd.
  assert (Hall : Forall (present w) required_files).
  { apply present_paths. cbn.
    inversion Hfiles as [| ? ? H1 Hf1]; subst.
    inversion Hf1 as [| ? ? H2 Hf2]; subst.
    inversion Hf2 as [| ? ? H3 Hf3]; subst.
    inversion Hf3 as [| ? ? H4 Hf4]; subst.
    inversion Hf4 as [| ? ? H5 _]; subst.
    repeat constructor; assumption. }
  assert (Hcmd : commands (trace (flash_all str w e)) = [cmd]).
  { change cmd with (command_of e).
    destruct (flash_all_ends str w e) as [Hno | pre p d post _ Hsplit _ Hp | | |];
      cbn [trace]; read_trace; try reflexivity.
    - contradiction.
    - rewrite Hsplit in Hall. apply present_member in Hall. congruence. }
  split; [exact Hcmd |].
  rewrite (main_commands str w env port Hparse). exact Hcmd.
Qed.

Lemma flash_all_command_layout_witness :
  parse_args_outcome world_flashes = Namespace (Some "/dev/ttyUSB1") /\
  getenv (resolved_environ (Some "/dev/ttyUSB1") env_usb0) "ESPPORT" "" <> "" /\
  commands (trace (main plain_str world_flashes env_usb0)) =
    [ [ "esptool.py"; "--chip"; "esp32"; "--port"; "/dev/ttyUSB1";
        "--baud"; "115200"; "write_flash";
        "--flash_mode"; "dio"; "--flash_freq"; "40m"; "--flash_size"; "4MB";
        "0x1000"; "build/bootloader/bootloader.bin";
        "0x8000"; "build/partition_table/partition-table.bin";
        "0x10000"; "build/esp32-doom.bin";
        "0x188000"; "build/wad_partition.bin";
        "0x388000"; "build/storage.bin" ] ].
Proof.
  assert (H1 : parse_args_outcome world_flashes = Namespace (Some "/dev/ttyUSB1"))
    by reflexivity.
  assert (H2 : getenv (resolved_environ (Some "/dev/ttyUSB1") env_usb0) "ESPPORT" "" <> "")
    by (vm_compute; discriminate).
  assert (H3 : Forall (fun p => os_path_exists world_flashes p = true)
                 [bootloader_bin; partition_table_bin; app_bin; wad_bin; storage_bin])
    by (repeat constructor).
  split; [exact H1 |]. split; [exact H2 |].
  exact (proj2 (flash_all_command_layout plain_str world_flashes env_usb0 _ H1 H2 H3)).
Defined.

(** ** The missing port *)



(** ** The missing artifact *)



(** The run of the script with [ESPPORT=/dev/ttyUSB0], no flag, and
    [build/storage.bin] not built. *)
Example storage_missing_run :
  trace (main plain_str world_no_storage env_usb0) =
    [ Print "ESP32-Doom Flash Script";
      Print "=======================";
      PathExists "build/bootloader/bootloader.bin";
      PathExists "build/partition_table/partition-table.bin";
      PathExists "build/esp32-doom.bin";
      PathExists "build/storage.bin";
      Print "Error: SPIFFS storage file not found: build/storage.bin";
      Print "Please run 'idf.py build' first";
      Print (nl +:+ ballot_x +:+ " Flashing failed!") ] /\
  exit_status (main plain_str world_no_storage env_usb0) = 1.
Proof. split; vm_compute; reflexivity. Qed.

(** ** The port given on the command line *)

(** C4, as amended. A non-empty value [v] given with [--port] or [-p] is
    written to [ESPPORT] in the process environment as the first effect of
    the run, before [flash_all] starts; it replaces any value [ESPPORT] had;
    every command the run spawns carries [v] as its port, and one is spawned
    when the artifacts exist. *)
Theorem port_flag_overrides str w env v :
  parse_args_outcome w = Namespace (Some v) ->
  v <> "" ->
  trace (main str w env) =
    SetEnv "ESPPORT" v
    :: banner
    ++ trace (flash_all str w (<["ESPPORT" := v]> env))
    ++ closing (value (flash_all str w (<["ESPPORT" := v]> env))) /\
  env_writes (trace (main str w env)) = [("ESPPORT", v)] /\
  environ_out (main str w env) !! "ESPPORT" = Some v /\
  (forall cmd, cmd ∈ commands (trace (main str w env)) ->
     cmd = flash_cmd v (getenv env "ESPBAUD" "115200") (getenv env "ESPFLASHMODE" "dio")
                     (getenv env "ESPFLASHFREQ" "40m") (getenv env "ESPFLASHSIZE" "4MB")) /\
  (Forall (fun f => os_path_exists w f.1 = true) required_files ->
   commands (trace (main str w env)) =
     [ flash_cmd v (getenv env "ESPBAUD" "115200") (getenv env "ESPFLASHMODE" "dio")
                 (getenv env "ESPFLASHFREQ" "40m") (getenv env "ESPFLASHSIZE" "4MB") ]).
Proof.
  intros Hparse Hv.
  destruct v as [| a s]; [done |]. set (v := String a s) in *.
  assert (Hres : resolved_environ (Some v) env = <["ESPPORT" := v]> env)
    by (by rewrite resolved_environ_eq).
  assert (Hcmd : command_of (<["ESPPORT" := v]> env) =
                 flash_cmd v (getenv env "ESPBAUD" "115200")
                   (getenv env "ESPFLASHMODE" "dio") (getenv env "ESPFLASHFREQ" "40m")
                   (getenv env "ESPFLASHSIZE" "4MB")).
  { unfold command_of, getenv. rewrite lookup_insert_eq.
    by rewrite !lookup_insert_ne by done. }
  assert (Hport : getenv (<["ESPPORT" := v]> env) "ESPPORT" "" <> "").
  { unfold getenv. by rewrite lookup_insert_eq. }
  split.
  { rewrite (main_parsed str w env (Some v) Hparse). cbn [trace].
    rewrite override_port_eq. reflexivity. }
  split.
  { rewrite (main_env_writes str w env (Some v) Hparse), override_port_eq. reflexivity. }
  split.
  { rewrite (main_environ str w env (Some v) Hparse), Hres. apply lookup_insert_eq. }
  rewrite (main_commands str w env (Some v) Hparse), Hres, <- Hcmd.
  split.
  - intros cmd Hin.
    destruct (flash_all_commands str w (<["ESPPORT" := v]> env)) as [E | E];
      rewrite E in Hin.
    + by apply elem_of_nil in Hin.
    + by apply list_elem_of_singleton in Hin.
  - intros Hall.
    destruct (flash_all_ends str w (<["ESPPORT" := v]> env))
      as [Hno | pre p d post _ Hsplit _ Hp | | |]; cbn [trace]; read_trace;
      try reflexivity.
    + contradiction.
    + rewrite Hsplit in Hall. apply present_member in Hall. congruence.
Qed.

Lemma port_flag_overrides_witness :
  parse_args_outcome world_flashes = Namespace (Some "/dev/ttyUSB1") /\
  "/dev/ttyUSB1" <> "" /\
  env_usb0 !! "ESPPORT" = Some "/dev/ttyUSB0" /\
  env_writes (trace (main plain_str world_flashes env_usb0)) =
    [("ESPPORT", "/dev/ttyUSB1")] /\
  environ_out (main plain_str world_flashes env_usb0) !! "ESPPORT" = Some "/dev/ttyUSB1".
Proof.
  assert (H1 : parse_args_outcome world_flashes = Namespace (Some "/dev/ttyUSB1"))
    by reflexivity.
  assert (H2 : "/dev/ttyUSB1" <> "") by discriminate.
  split; [exact H1 |]. split; [exact H2 |]. split; [reflexivity |].
  pose proof (port_flag_overrides plain_str world_flashes env_usb0 _ H1 H2)
    as (_ & Hw & He & _).
  split; [exact Hw | exact He].
Defined.

(** C4 as stated fails for the empty value: with [--port ''] and
    [ESPPORT=/dev/ttyUSB0] nothing is written to the environment and the
    command keeps the port of the environment. *)
Lemma port_flag_empty_value_ignored :
  parse_args_outcome world_empty_flag = Namespace (Some "") /\
  env_usb0 !! "ESPPORT" = Some "/dev/ttyUSB0" /\
  env_writes (trace (main plain_str world_empty_flag env_usb0)) = [] /\
  environ_out (main plain_str world_empty_flag env_usb0) !! "ESPPORT"
    = Some "/dev/ttyUSB0" /\
  commands (trace (main plain_str world_empty_flag env_usb0)) =
    [ flash_cmd "/dev/ttyUSB0" "115200" "dio" "40m" "4MB" ] /\
  ~ (environ_out (main plain_str world_empty_flag env_usb0) !! "ESPPORT" = Some "").
Proof. vm_compute. repeat split; discriminate. Qed.

(** ** One spawn, no retry *)

(** C7. Every run calls [subprocess.run] at most once; when it does, nothing
    was spawned before and only printing follows.  Each failure ends the
    run: a missing port and a missing artifact without any spawn, a failed
    tool with its own spawn as the only one; all three with exit status 1. *)
Theorem spawned_at_most_once str w env :
  (length (commands (trace (main str w env))) <= 1)%nat /\
  (commands (trace (main str w env)) = [] \/
   exists before cmd after,
     trace (main str w env) = before ++ SubprocessRun cmd :: after /\
     commands before = [] /\ Forall is_print after) /\
  (forall port,
     parse_args_outcome w = Namespace port ->
     getenv (resolved_environ port env) "ESPPORT" "" = "" ->
     commands (trace (main str w env)) = [] /\ exit_status (main str w env) = 1) /\
  (forall port,
     parse_args_outcome w = Namespace port ->
     getenv (resolved_environ port env) "ESPPORT" "" <> "" ->
     Exists (fun f => os_path_exists w f.1 = false) required_files ->
     commands (trace (main str w env)) = [] /\ exit_status (main str w env) = 1) /\
  (forall port rc out err,
     parse_args_outcome w = Namespace port ->
     getenv (resolved_environ port env) "ESPPORT" "" <> "" ->
     Forall (fun f => os_path_exists w f.1 = true) required_files ->
     child w (command_of (resolved_environ port env)) = Exited rc out err ->
     rc <> 0 ->
     commands (trace (main str w env)) = [command_of (resolved_environ port env)] /\
     exit_status (main str w env) = 1).
Proof.
  split; [| split; [| split; [| split]]].
  - destruct (parse_args_outcome w) as [port | status] eqn:Hparse.
    + rewrite (main_commands str w env port Hparse).
      destruct (flash_all_commands str w (resolved_environ port env)) as [-> | ->];
        cbn; lia.
    + rewrite (main_parser_exit str w env status Hparse). cbn. lia.
  - destruct (parse_args_outcome w) as [port | status] eqn:Hparse.
    2: { left. by rewrite (main_parser_exit str w env status Hparse). }
    rewrite (main_commands str w env port Hparse).
    rewrite (main_parsed str w env port Hparse). cbn [trace].
    fold (resolved_environ port env).
    set (e := resolved_environ port env).
    destruct (flash_all_ends str w e); cbn [trace value].
    1, 2: left; read_trace; reflexivity.
    all: right;
      exists (trace (override_port port env) ++ banner
              ++ (PathExists <$> required_files.*1)
              ++ announce (command_of e) "Flashing all partitions"),
             (command_of e).
    all: eexists; split; [rewrite <- !app_assoc; cbn [app]; reflexivity |].
    all: split;
      [ unfold commands; rewrite !omap_app; fold commands;
        by rewrite commands_override, commands_probing
      | repeat constructor ].
  - intros port Hparse Hport.
    by rewrite (main_no_port str w env port Hparse Hport).
  - intros port Hparse Hport Hex.
    destruct (missing_files_end str w env port Hparse Hport Hex) as [-> ->]. done.
  - intros port rc out err Hparse Hport Hall Hchild Hrc.
    pose proof (flash_all_spawn str w _ Hport Hall) as Hrun.
    rewrite (run_command_failed str w _ _ _ rc out err Hchild Hrc) in Hrun.
    cbn [value environ_out trace] in Hrun.
    rewrite (main_commands str w env port Hparse),
      (main_exit_status str w env port Hparse), Hrun.
    cbn [trace value]. read_trace. done.
Qed.

Lemma spawned_at_most_once_witness :
  (length (commands (trace (main plain_str world_tool_fails env_usb0))) <= 1)%nat /\
  commands (trace (main plain_str world_tool_fails env_usb0))
    = [flash_cmd "/dev/ttyUSB0" "115200" "dio" "40m" "4MB"] /\
  exit_status (main plain_str world_tool_fails env_usb0) = 1.
Proof.
  destruct (spawned_at_most_once plain_str world_tool_fails env_usb0)
    as (Hle & _ & _ & _ & Hfail).
  split; [exact Hle |].
  apply (Hfail None 2 "Connecting..." "A fatal error occurred");
    [ reflexivity | vm_compute; discriminate | repeat constructor | reflexivity | lia ].
Defined.

(** ** The empty port argument *)

(** C8. With [--port ''] the override is skipped: nothing is written to the
    environment, the run is the run without the flag, [flash_all] takes the
    port from [ESPPORT] alone, and when that is absent or empty the run ends
    with the missing-port report and exit status 1. *)
Theorem empty_port_flag_skipped str w env :
  parse_args_outcome w = Namespace (Some "") ->
  env_writes (trace (main str w env)) = [] /\
  environ_out (main str w env) = env /\
  main str w env =
    main str {| parse_args_outcome := Namespace None;
                os_path_exists := os_path_exists w;
                child := child w |} env /\
  trace (main str w env) =
    banner ++ trace (flash_all str w env) ++ closing (value (flash_all str w env)) /\
  (forall cmd, cmd ∈ commands (trace (main str w env)) ->
     cmd = flash_cmd (getenv env "ESPPORT" "") (getenv env "ESPBAUD" "115200")
                     (getenv env "ESPFLASHMODE" "dio") (getenv env "ESPFLASHFREQ" "40m")
                     (getenv env "ESPFLASHSIZE" "4MB")) /\
  (env !! "ESPPORT" = None \/ env !! "ESPPORT" = Some "" ->
   trace (main str w env) =
     [ Print "ESP32-Doom Flash Script";
       Print "=======================";
       Print "Error: ESPPORT environment variable not set!";
       Print "Please set ESPPORT to your device port (e.g., /dev/ttyUSB0)";
       Print "You can also set it via: export ESPPORT=/dev/ttyUSB0";
       Print (nl +:+ ballot_x +:+ " Flashing failed!") ] /\
   commands (trace (main str w env)) = [] /\
   exit_status (main str w env) = 1).
Proof.
  intros Hparse.
  split; [| split; [| split; [| split; [| split]]]].
  - by rewrite (main_env_writes str w env _ Hparse).
  - by rewrite (main_environ str w env _ Hparse).
  - set (w' := {| parse_args_outcome := Namespace None;
                  os_path_exists := os_path_exists w;
                  child := child w |}).
    assert (Hparse' : parse_args_outcome w' = Namespace None) by reflexivity.
    rewrite (main_parsed str w env _ Hparse), (main_parsed str w' env _ Hparse').
    reflexivity.
  - by rewrite (main_parsed str w env _ Hparse).
  - intros cmd. rewrite (main_commands str w env _ Hparse).
    change (resolved_environ (Some "") env) with env.
    destruct (flash_all_commands str w env) as [-> | ->]; intros Hin.
    + by apply elem_of_nil in Hin.
    + by apply list_elem_of_singleton in Hin.
  - intros Hport.
    assert (Hget : getenv (resolved_environ (Some "") env) "ESPPORT" "" = "").
    { change (resolved_environ (Some "") env) with env.
      unfold getenv. by destruct Hport as [-> | ->]. }
    by rewrite (main_no_port str w env _ Hparse Hget).
Qed.

Lemma empty_port_flag_skipped_witness :
  parse_args_outcome world_empty_flag = Namespace (Some "") /\
  env_writes (trace (main plain_str world_empty_flag ∅)) = [] /\
  environ_out (main plain_str world_empty_flag ∅) = ∅ /\
  commands (trace (main plain_str world_empty_flag ∅)) = [] /\
  exit_status (main plain_str world_empty_flag ∅) = 1.
Proof.
  assert (H1 : parse_args_outcome world_empty_flag = Namespace (Some "")) by reflexivity.
  destruct (empty_port_flag_skipped plain_str world_empty_flag ∅ H1)
    as (Hw & He & _ & _ & _ & Hno).
  destruct (Hno (or_introl eq_refl)) as (_ & Hc & Hx).
  split; [exact H1 |]. split; [exact Hw |]. split; [exact He |].
  split; [exact Hc | exact Hx].
Defined.

(** ** The environment *)

(** C9. A run leaves every variable other than [ESPPORT] as it was; it
    writes the environment at most once, only to [ESPPORT], and exactly when
    a non-empty port argument was parsed. *)
Theorem only_ESPPORT_written str w env :
  (forall k, k <> "ESPPORT" -> environ_out (main str w env) !! k = env !! k) /\
  (length (env_writes (trace (main str w env))) <= 1)%nat /\
  (forall k v, (k, v) ∈ env_writes (trace (main str w env)) -> k = "ESPPORT") /\
  (env_writes (trace (main str w env)) <> [] <->
   exists v, parse_args_outcome w = Namespace (Some v) /\ v <> "") /\
  (forall v, parse_args_outcome w = Namespace (Some v) -> v <> "" ->
             env_writes (trace (main str w env)) = [("ESPPORT", v)]).
Proof.
  destruct (parse_args_outcome w) as [port | status] eqn:Hparse.
  2: { rewrite (main_parser_exit str w env status Hparse). cbn.
       repeat split; try done; try lia.
       - intros k v Hin. by apply elem_of_nil in Hin.
       - intros (v & Hv & _). discriminate. }
  rewrite (main_environ str w env port Hparse), (main_env_writes str w env port Hparse),
    resolved_environ_eq, override_port_eq.
  destruct port as [[| a s] |]; cbn.
  - repeat split; try done; try lia.
    + intros k v Hin. by apply elem_of_nil in Hin.
    + intros (v & Hv & Hne). congruence.
    + intros v Hv Hne. congruence.
  - repeat split; try done; try lia.
    + intros k Hk. by rewrite lookup_insert_ne.
    + intros k v Hin. apply list_elem_of_singleton in Hin. congruence.
    + intros _. by exists (String a s).
    + intros v Hv _. congruence.
  - repeat split; try done; try lia.
    + intros k v Hin. by apply elem_of_nil in Hin.
    + intros (v & Hv & _). discriminate.
Qed.

Lemma only_ESPPORT_written_witness :
  environ_out (main plain_str world_flashes env_usb0) !! "ESPBAUD" = env_usb0 !! "ESPBAUD" /\
  env_writes (trace (main plain_str world_flashes env_usb0)) = [("ESPPORT", "/dev/ttyUSB1")].
Proof.
  destruct (only_ESPPORT_written plain_str world_flashes env_usb0)
    as (Hframe & _ & _ & _ & Hwrite).
  split.
  - apply Hframe. discriminate.
  - apply Hwrite; [reflexivity | discriminate].
Defined.

(** ** Agreement on the configuration *)

Lemma up_to_spawn_quiet (a b : list event) :
  commands a = [] -> up_to_spawn (a ++ b) = a ++ up_to_spawn b.
Proof.
  induction a as [| e a IH]; [reflexivity |].
  destruct e; cbn; try discriminate; intros H; by rewrite IH.
Qed.

Section Agreement.

Variables e1 e2 : gmap string string.

Hypothesis same_config : forall k, k ∈ config_names -> e1 !! k = e2 !! k.

Lemma same_getenv k d : k ∈ config_names -> getenv e1 k d = getenv e2 k d.
Proof. intros Hk. unfold getenv. by rewrite (same_config k Hk). Qed.

Lemma same_command : command_of e1 = command_of e2.
Proof.
  unfold command_of.
  rewrite (same_getenv "ESPPORT"), (same_getenv "ESPBAUD"), (same_getenv "ESPFLASHMODE"),
    (same_getenv "ESPFLASHFREQ"), (same_getenv "ESPFLASHSIZE");
    [reflexivity | unfold config_names; repeat constructor ..].
Qed.

End Agreement.

(** * Further properties of the script *)

(** ** A tool that cannot be run *)



(** ** The file probes *)

Lemma required_paths_NoDup : NoDup required_files.*1.
Proof. compute_done. Qed.

Lemma prefix_NoDup {A} (l k : list A) : l `prefix_of` k -> NoDup k -> NoDup l.
Proof. intros [rest ->] H. by apply NoDup_app in H as (H & _ & _). Qed.

(** X5. In every run the probed paths are an initial part of the artifact
    list, in its order, and no path is probed twice; when the tool is
    spawned, all five paths were probed before the spawn and none after. *)
Theorem probes_in_order str w env :
  probes (trace (main str w env)) `prefix_of` required_files.*1 /\
  NoDup (probes (trace (main str w env))) /\
  (commands (trace (main str w env)) <> [] ->
   exists before cmd after,
     trace (main str w env) = before ++ SubprocessRun cmd :: after /\
     probes before = required_files.*1 /\
     probes after = []).
Proof.
  assert (Hpre : probes (trace (main str w env)) `prefix_of` required_files.*1).
  { destruct (parse_args_outcome w) as [port | status] eqn:Hparse.
    2: { rewrite (main_parser_exit str w env status Hparse). apply prefix_nil. }
    rewrite (main_probes str w env port Hparse).
    remember (required_files.*1) as paths eqn:Hpaths.
    destruct (flash_all_ends str w (resolved_environ port env))
      as [Hno | pre p d post Hne Hsplit Hpre Habs | | |]; cbn [trace];
      rewrite <- ?Hpaths; read_trace; rewrite ?app_nil_r; try reflexivity.
    - apply prefix_nil.
    - exists post.*1. rewrite Hpaths, Hsplit, fmap_app, <- app_assoc. reflexivity. }
  split; [exact Hpre |].
  split; [exact (prefix_NoDup _ _ Hpre required_paths_NoDup) |].
  intros Hspawn.
  apply spawn_validated in Hspawn as (port & Hparse & Hport & Hall).
  exists (trace (override_port port env) ++ banner
          ++ (PathExists <$> required_files.*1)
          ++ announce (command_of (resolved_environ port env)) "Flashing all partitions"),
         (command_of (resolved_environ port env)).
  rewrite (main_parsed str w env port Hparse). cbn zeta.
  fold (resolved_environ port env).
  rewrite (flash_all_validated str w _ Hport Hall).
  unfold after. cbn [value trace].
  set (o := child w (command_of (resolved_environ port env))).
  set (fin := finish str _ _ _ o).
  exists (trace fin ++ closing (value fin)).
  split; [rewrite <- !app_assoc; reflexivity |].
  split.
  - rewrite !probes_app, probes_override, probes_probing, probes_announce.
    change (probes banner) with (@nil string). cbn [app]. apply app_nil_r.
  - rewrite probes_app, probes_closing, app_nil_r.
    subst fin. unfold finish. destruct o as [rc out err | name]; [destruct (rc =? 0) |];
      reflexivity.
Qed.

(** ** The flag and the variable *)

(** X6. Giving a non-empty port with [--port] is the same as running
    without the flag in an environment where [ESPPORT] already has that
    value, apart from the write to the environment that comes first: same
    further effects, same result, same final environment, same exit
    status. *)
Theorem port_flag_as_environment str w env v :
  parse_args_outcome w = Namespace (Some v) ->
  v <> "" ->
  let w' := {| parse_args_outcome := Namespace None;
               os_path_exists := os_path_exists w;
               child := child w |} in
  let env' := <["ESPPORT" := v]> env in
  trace (main str w env) = SetEnv "ESPPORT" v :: trace (main str w' env') /\
  value (main str w env) = value (main str w' env') /\
  environ_out (main str w env) = environ_out (main str w' env') /\
  exit_status (main str w env) = exit_status (main str w' env').
Proof.
  intros Hparse Hv w' env'.
  assert (Hparse' : parse_args_outcome w' = Namespace None) by reflexivity.
  unfold exit_status.
  rewrite (main_parsed str w env _ Hparse), (main_parsed str w' env' _ Hparse').
  destruct v as [| a s]; [done |].
  change (flash_all str w') with (flash_all str w).
  by cbn.
Qed.

Lemma port_flag_as_environment_witness :
  parse_args_outcome world_flashes = Namespace (Some "/dev/ttyUSB1") /\
  "/dev/ttyUSB1" <> "" /\
  exit_status (main plain_str world_flashes env_usb0) =
  exit_status (main plain_str
                 {| parse_args_outcome := Namespace None;
                    os_path_exists := os_path_exists world_flashes;
                    child := child world_flashes |}
                 (<["ESPPORT" := "/dev/ttyUSB1"]> env_usb0)).
Proof.
  assert (H1 : parse_args_outcome world_flashes = Namespace (Some "/dev/ttyUSB1"))
    by reflexivity.
  assert (H2 : "/dev/ttyUSB1" <> "") by discriminate.
  split; [exact H1 |]. split; [exact H2 |].
  exact (proj2 (proj2 (proj2
           (port_flag_as_environment plain_str world_flashes env_usb0 _ H1 H2)))).
Defined.

(** * The script with encoding and decoding *)

(** ** Printing *)

Lemma encodes_dec h lines : {encodes h lines} + {~ encodes h lines}.
Proof. unfold encodes. apply Forall_dec. intros s. apply bool_eq_dec. Qed.

Lemma encodes_app h l1 l2 : encodes h (l1 ++ l2) <-> encodes h l1 /\ encodes h l2.
Proof. apply Forall_app. Qed.

Lemma say_encodes {A} enc lines env (k : res A) :
  Forall (fun s => enc s = true) lines ->
  say enc lines env k = after (Print <$> lines) k.
Proof.
  induction 1 as [| s rest Hs _ IH]; cbn [say].
  - symmetry. apply after_nil.
  - rewrite Hs, IH. reflexivity.
Qed.

(** A line that is not encoded ends the run before anything [k] does. *)
Lemma say_stops {A} enc lines env (k : res A) :
  ~ Forall (fun s => enc s = true) lines ->
  value (say enc lines env k) = inr (OtherException "UnicodeEncodeError") /\
  environ_out (say enc lines env k) = env /\
  commands (trace (say enc lines env k)) = [] /\
  probes (trace (say enc lines env k)) = [] /\
  Forall is_print (trace (say enc lines env k)).
Proof.
  induction lines as [| s rest IH]; intros Hno.
  - exfalso. apply Hno. constructor.
  - cbn [say]. destruct (enc s) eqn:Hs.
    + destruct IH as (Hv & He & Hc & Hp & Hpr).
      { intros Hrest. apply Hno. by constructor. }
      unfold after. cbn [value environ_out trace].
      repeat split; try assumption. cbn. by constructor.
    + cbn. repeat split. constructor.
Qed.

Lemma bind_codec_print {B} h (s : string) (k : unit -> M B) env :
  bind (Codec.print h s) k env = say (Codec.stdout_encodes h) [s] env (k tt env).
Proof.
  unfold bind, Codec.print. cbn [say].
  destruct (Codec.stdout_encodes h s); [by destruct (k tt env) | reflexivity].
Qed.

(** ** [Codec.run_command] *)

Section CodecRun.

Variable str : list string -> Z -> string.
Variable h : Codec.Host.

Lemma codec_run_command_eq cmd d env :
  Codec.run_command str h cmd d env =
    say (Codec.stdout_encodes h) (announce_lines cmd d) env
      (after [SubprocessRun cmd] (codec_finish str h cmd d env (Codec.child h cmd))).
Proof.
  unfold Codec.run_command. rewrite !bind_codec_print. cbn [say announce_lines].
  destruct (Codec.stdout_encodes h (nl +:+ d +:+ "...")); [| reflexivity].
  destruct (Codec.stdout_encodes h ("Command: " +:+ join " " cmd)); [| reflexivity].
  do 2 f_equal.
  set (body := bind (Codec.subprocess_run_check h cmd) _).
  set (handler := fun e : exn => _).
  unfold codec_finish.
  destruct (Codec.child h cmd) as [rc [out err |] | name] eqn:Hchild.
  - destruct (rc =? 0) eqn:Hrc.
    + assert (Hrun : Codec.subprocess_run_check h cmd env
                     = Res (inl tt) env [SubprocessRun cmd])
        by (unfold Codec.subprocess_run_check; by rewrite Hchild, Hrc).
      assert (Hbody : body env =
                after [SubprocessRun cmd]
                  (say (Codec.stdout_encodes h) [completed_line d] env
                     (Res (inl true) env []))).
      { subst body. by rewrite (bind_ok _ _ _ _ _ _ Hrun), bind_codec_print. }
      cbn [say] in *.
      destruct (Codec.stdout_encodes h (completed_line d)).
      * by rewrite (try_except_ok _ handler _ _ _ _ Hbody).
      * by rewrite (try_except_uncaught _ handler _ _ _ _ Hbody eq_refl).
    + assert (Hrun : Codec.subprocess_run_check h cmd env
                     = Res (inr (CalledProcessError cmd rc out err)) env [SubprocessRun cmd])
        by (unfold Codec.subprocess_run_check; by rewrite Hchild, Hrc).
      assert (Hbody : body env =
                Res (inr (CalledProcessError cmd rc out err)) env [SubprocessRun cmd])
        by (subst body; by rewrite (bind_exn _ _ _ _ _ _ Hrun)).
      rewrite (try_except_caught _ handler _ _ _ _ _ Hbody eq_refl).
      rewrite !bind_codec_print. reflexivity.
  - assert (Hrun : Codec.subprocess_run_check h cmd env
                   = Res (inr (OtherException "UnicodeDecodeError")) env [SubprocessRun cmd])
      by (unfold Codec.subprocess_run_check; by rewrite Hchild).
    assert (Hbody : body env =
              Res (inr (OtherException "UnicodeDecodeError")) env [SubprocessRun cmd])
      by (subst body; by rewrite (bind_exn _ _ _ _ _ _ Hrun)).
    rewrite (try_except_uncaught _ handler _ _ _ _ Hbody eq_refl). reflexivity.
  - assert (Hrun : Codec.subprocess_run_check h cmd env
                   = Res (inr (OtherException name)) env [SubprocessRun cmd])
      by (unfold Codec.subprocess_run_check; by rewrite Hchild).
    assert (Hbody : body env = Res (inr (OtherException name)) env [SubprocessRun cmd])
      by (subst body; by rewrite (bind_exn _ _ _ _ _ _ Hrun)).
    rewrite (try_except_uncaught _ handler _ _ _ _ Hbody eq_refl). reflexivity.
Qed.

End CodecRun.

(** ** [Codec.flash_all] and [Codec.main] *)

Section CodecScript.

Variable str : list string -> Z -> string.
Variable h : Codec.Host.


Lemma codec_check_files_cons p d rest env :
  Codec.check_files h ((p, d) :: rest) env =
    after [PathExists p]
      (if Codec.os_path_exists h p then Codec.check_files h rest env
       else say (Codec.stdout_encodes h) (missing_file_lines p d) env
              (Res (inl (Some false)) env [])).
Proof.
  cbn [Codec.check_files].
  assert (Hprobe : Codec.path_exists h p env
                   = Res (inl (Codec.os_path_exists h p)) env [PathExists p])
    by reflexivity.
  rewrite (bind_ok _ _ _ _ _ _ Hprobe).
  destruct (Codec.os_path_exists h p); cbn [negb]; [reflexivity |].
  by rewrite !bind_codec_print.
Qed.

Lemma codec_check_files_present files env :
  Forall (here h) files ->
  Codec.check_files h files env = Res (inl None) env (PathExists <$> files.*1).
Proof.
  induction 1 as [| [p d] rest Hp _ IH]; [reflexivity |].
  unfold here in Hp; cbn in Hp.
  rewrite codec_check_files_cons, Hp, IH. reflexivity.
Qed.

Lemma codec_check_files_missing pre p d post env :
  Forall (here h) pre ->
  Codec.os_path_exists h p = false ->
  Codec.check_files h (pre ++ (p, d) :: post) env =
    after ((PathExists <$> pre.*1) ++ [PathExists p])
      (say (Codec.stdout_encodes h) (missing_file_lines p d) env (Res (inl (Some false)) env [])).
Proof.
  intros Hpre Hp. induction Hpre as [| [q e] rest Hq _ IH]; cbn [app].
  - rewrite codec_check_files_cons, Hp. reflexivity.
  - unfold here in Hq; cbn in Hq.
    rewrite codec_check_files_cons, Hq, IH.
    unfold after. cbn [value environ_out trace]. reflexivity.
Qed.

Lemma codec_first_absent files :
  ~ Forall (here h) files ->
  exists pre p d post,
    files = pre ++ (p, d) :: post /\ Forall (here h) pre /\ Codec.os_path_exists h p = false.
Proof.
  induction files as [| [q e] rest IH]; intros Hno.
  - exfalso. apply Hno. constructor.
  - destruct (Codec.os_path_exists h q) eqn:Hq.
    + destruct IH as (pre & p & d & post & -> & Hpre & Hp).
      { intros Hrest. apply Hno. by constructor. }
      exists ((q, e) :: pre), p, d, post. repeat split; [by constructor | exact Hp].
    + by exists [], q, e, rest.
Qed.

Lemma codec_flash_all_eq env :
  Codec.flash_all str h env =
    if truthy (getenv env "ESPPORT" "") then
      bind (Codec.check_files h required_files)
           (fun returned =>
              match returned with
              | Some b => ret b
              | None => Codec.run_command str h (command_of env) "Flashing all partitions"
              end) env
    else say (Codec.stdout_encodes h) missing_port_lines env (Res (inl false) env []).
Proof.
  unfold Codec.flash_all. rewrite !bind_environ_get.
  destruct (truthy (getenv env "ESPPORT" "")); cbn [negb]; [reflexivity |].
  by rewrite !bind_codec_print.
Qed.

Lemma codec_flash_all_no_port env :
  getenv env "ESPPORT" "" = "" ->
  Codec.flash_all str h env =
    say (Codec.stdout_encodes h) missing_port_lines env (Res (inl false) env []).
Proof. intros H. by rewrite codec_flash_all_eq, H. Qed.

Lemma codec_flash_all_missing env pre p d post :
  getenv env "ESPPORT" "" <> "" ->
  required_files = pre ++ (p, d) :: post ->
  Forall (here h) pre ->
  Codec.os_path_exists h p = false ->
  Codec.flash_all str h env =
    after ((PathExists <$> pre.*1) ++ [PathExists p])
      (say (Codec.stdout_encodes h) (missing_file_lines p d) env (Res (inl false) env [])).
Proof.
  intros Hport Hsplit Hpre Hp. apply truthy_nonempty in Hport.
  rewrite codec_flash_all_eq, Hport, Hsplit.
  unfold bind. rewrite (codec_check_files_missing pre p d post env Hpre Hp).
  cbn [say missing_file_lines].
  destruct (Codec.stdout_encodes h _); [| reflexivity].
  destruct (Codec.stdout_encodes h _); [| reflexivity].
  unfold after, ret. cbn [value environ_out trace]. by rewrite app_nil_r.
Qed.

Lemma codec_flash_all_validated env :
  getenv env "ESPPORT" "" <> "" ->
  Forall (here h) required_files ->
  Codec.flash_all str h env =
    after (PathExists <$> required_files.*1)
      (say (Codec.stdout_encodes h) (announce_lines (command_of env) "Flashing all partitions") env
         (after [SubprocessRun (command_of env)]
            (codec_finish str h (command_of env) "Flashing all partitions" env
               (Codec.child h (command_of env))))).
Proof.
  intros Hport Hall. apply truthy_nonempty in Hport.
  rewrite codec_flash_all_eq, Hport.
  rewrite (bind_ok _ _ _ _ _ _ (codec_check_files_present required_files env Hall)).
  by rewrite codec_run_command_eq.
Qed.

Lemma codec_main_parser_exit env status :
  Codec.parse_args_outcome h = ParserExit status ->
  Codec.main str h env = Res (inr (SystemExit status)) env [].
Proof. intros H. unfold Codec.main, Codec.parse_args. by rewrite H. Qed.

Lemma codec_main_parsed env port :
  Codec.parse_args_outcome h = Namespace port ->
  Codec.main str h env =
    after (trace (override_port port env))
      (say (Codec.stdout_encodes h) banner_lines (resolved_environ port env)
         (after (trace (Codec.flash_all str h (resolved_environ port env)))
            (codec_close h (environ_out (Codec.flash_all str h (resolved_environ port env)))
               (value (Codec.flash_all str h (resolved_environ port env)))))).
Proof.
  intros H. unfold Codec.main, Codec.parse_args. rewrite H, bind_ret.
  assert (H0 : override_port port env =
               Res (inl tt) (resolved_environ port env) (trace (override_port port env))).
  { unfold resolved_environ. rewrite override_port_eq. by destruct port as [[| a s] |]. }
  rewrite (bind_ok _ _ _ _ _ _ H0), !bind_codec_print. cbn [say banner_lines].

  destruct (Codec.stdout_encodes h "ESP32-Doom Flash Script"); [| reflexivity].
  destruct (Codec.stdout_encodes h "======================="); [| reflexivity].
  do 3 f_equal.
  destruct (Codec.flash_all str h (resolved_environ port env))
    as [[[|] | e] env' t] eqn:Hr; cbn [value environ_out trace codec_close].
  - rewrite (bind_ok _ _ _ true env' t Hr), !bind_codec_print. reflexivity.
  - rewrite (bind_ok _ _ _ false env' t Hr), !bind_codec_print. reflexivity.
  - rewrite (bind_exn _ _ _ e env' t Hr). unfold after. cbn. by rewrite app_nil_r.
Qed.

End CodecScript.

(** ** What a run with fallible printing shows *)

Lemma commands_prints (lines : list string) : commands (Print <$> lines) = [].
Proof. induction lines; [reflexivity | assumption]. Qed.

Lemma probes_prints (lines : list string) : probes (Print <$> lines) = [].
Proof. induction lines; [reflexivity | assumption]. Qed.

Lemma say_ext {A} enc1 enc2 lines env (k : res A) :
  (forall s, enc1 s = enc2 s) -> say enc1 lines env k = say enc2 lines env k.
Proof.
  intros Hext. induction lines as [| s rest IH]; [reflexivity |].
  cbn [say]. by rewrite Hext, IH.
Qed.

(** The result of [say] is that of [k] only when every line was encoded. *)
Lemma say_value_inl {A} enc lines env (k : res A) a :
  value (say enc lines env k) = inl a ->
  Forall (fun s => enc s = true) lines /\ value k = inl a.
Proof.
  induction lines as [| s rest IH]; cbn [say]; [by split |].
  destruct (enc s) eqn:Hs; [| discriminate].
  unfold after. cbn [value]. intros Hv. destruct (IH Hv). split; [by constructor | done].
Qed.

Lemma say_value_exit {A} enc lines env (k : res A) code :
  value (say enc lines env k) = inr (SystemExit code) ->
  Forall (fun s => enc s = true) lines /\ value k = inr (SystemExit code).
Proof.
  induction lines as [| s rest IH]; cbn [say]; [by split |].
  destruct (enc s) eqn:Hs; [| discriminate].
  unfold after. cbn [value]. intros Hv. destruct (IH Hv). split; [by constructor | done].
Qed.

Lemma say_value_inr {A} enc lines env (k : res A) x :
  value (say enc lines env k) = inr x ->
  x = OtherException "UnicodeEncodeError" \/ value k = inr x.
Proof.
  induction lines as [| s rest IH]; cbn [say]; [by right |].
  destruct (enc s); [exact IH |]. cbn. intros Hx. left. by inversion Hx.
Qed.

Lemma say_environ {A} enc lines env (k : res A) :
  environ_out k = env -> environ_out (say enc lines env k) = env.
Proof.
  intros Hk. induction lines as [| s rest IH]; cbn [say]; [exact Hk |].
  destruct (enc s); [exact IH | reflexivity].
Qed.

Lemma say_commands {A} enc lines env (k : res A) :
  commands (trace (say enc lines env k)) = [] \/
  (Forall (fun s => enc s = true) lines /\
   commands (trace (say enc lines env k)) = commands (trace k)).
Proof.
  destruct (decide (Forall (fun s => enc s = true) lines)) as [Hall | Hno].
  - right. split; [exact Hall |]. rewrite (say_encodes _ _ _ _ Hall).
    unfold after. cbn [trace]. by rewrite commands_app, commands_prints.
  - left. by apply say_stops.
Qed.



Lemma say_prints {A} enc lines env (k : res A) :
  Forall is_print (trace k) -> Forall is_print (trace (say enc lines env k)).
Proof.
  intros Hk. induction lines as [| s rest IH]; cbn [say]; [exact Hk |].
  destruct (enc s); [| constructor].
  unfold after. cbn [trace app]. by constructor.
Qed.

Section CodecFacts.

Variable str : list string -> Z -> string.
Variable h : Codec.Host.


Lemma codec_finish_environ cmd d env o :
  environ_out (codec_finish str h cmd d env o) = env.
Proof.
  destruct o as [rc [out err |] | name]; cbn [codec_finish]; try reflexivity.
  destruct (rc =? 0); by apply say_environ.
Qed.

Lemma codec_finish_prints cmd d env o :
  Forall is_print (trace (codec_finish str h cmd d env o)).
Proof.
  destruct o as [rc [out err |] | name]; cbn [codec_finish]; try constructor.
  destruct (rc =? 0); apply say_prints; constructor.
Qed.

Lemma prints_no_commands (t : list event) : Forall is_print t -> commands t = [].
Proof. induction 1 as [| [] t He _ IH]; try done. Qed.

Lemma codec_finish_true cmd d env o :
  value (codec_finish str h cmd d env o) = inl true <->
  exists out err,
    o = Codec.Exited 0 (Codec.Text out err) /\
    Codec.stdout_encodes h (completed_line d) = true.
Proof.
  split.
  - destruct o as [rc [out err |] | name]; cbn [codec_finish]; try discriminate.
    destruct (Z.eqb_spec rc 0) as [-> | Hrc]; intros Hv;
      apply say_value_inl in Hv as [Henc Hv]; [| discriminate].
    exists out, err. split; [reflexivity |]. by inversion Henc.
  - intros (out & err & -> & Henc). cbn [codec_finish Z.eqb say].
    by rewrite Henc.
Qed.

Lemma codec_finish_false cmd d env o :
  value (codec_finish str h cmd d env o) = inl false <->
  exists rc out err,
    o = Codec.Exited rc (Codec.Text out err) /\ rc <> 0 /\
    encodes h (tool_failure_lines d (str cmd rc) out err).
Proof.
  split.
  - destruct o as [rc [out err |] | name]; cbn [codec_finish]; try discriminate.
    destruct (Z.eqb_spec rc 0) as [-> | Hrc]; intros Hv;
      apply say_value_inl in Hv as [Henc Hv]; [discriminate |].
    by exists rc, out, err.
  - intros (rc & out & err & -> & Hrc & Henc). cbn [codec_finish].
    apply Z.eqb_neq in Hrc. rewrite Hrc, (say_encodes _ _ _ _ Henc). reflexivity.
Qed.

Lemma codec_finish_raises cmd d env o x :
  value (codec_finish str h cmd d env o) = inr x -> exists name, x = OtherException name.
Proof.
  destruct o as [rc [out err |] | name]; cbn [codec_finish].
  - destruct (rc =? 0); intros Hx; apply say_value_inr in Hx as [-> | Hx].
    + by exists "UnicodeEncodeError".
    + discriminate Hx.
    + by exists "UnicodeEncodeError".
    + discriminate Hx.
  - intros Hx. inversion Hx. by eexists.
  - intros Hx. inversion Hx. by eexists.
Qed.

End CodecFacts.



Section CodecEnds.

Variable str : list string -> Z -> string.
Variable h : Codec.Host.


(** The three shapes of a call of [Codec.flash_all]. *)
Lemma codec_flash_all_cases env :
  (getenv env "ESPPORT" "" = "" /\
   Codec.flash_all str h env =
     say (Codec.stdout_encodes h) missing_port_lines env (Res (inl false) env [])) \/
  (getenv env "ESPPORT" "" <> "" /\
   exists pre p d post,
     required_files = pre ++ (p, d) :: post /\ Forall (here h) pre /\
     Codec.os_path_exists h p = false /\
     Codec.flash_all str h env =
       after ((PathExists <$> pre.*1) ++ [PathExists p])
         (say (Codec.stdout_encodes h) (missing_file_lines p d) env (Res (inl false) env []))) \/
  (getenv env "ESPPORT" "" <> "" /\ Forall (here h) required_files /\
   Codec.flash_all str h env =
     after (PathExists <$> required_files.*1)
       (say (Codec.stdout_encodes h) (announce_lines (command_of env) "Flashing all partitions") env
          (after [SubprocessRun (command_of env)]
             (codec_finish str h (command_of env) "Flashing all partitions" env
                (Codec.child h (command_of env)))))).
Proof.
  destruct (decide (getenv env "ESPPORT" "" = "")) as [Hno | Hport].
  { left. split; [exact Hno | by apply codec_flash_all_no_port]. }
  right.
  assert (Hdec : Forall (here h) required_files \/ ~ Forall (here h) required_files).
  { destruct (Forall_dec (fun f => Codec.os_path_exists h f.1 = true) required_files)
      as [H | H]; [by left | by right]. }
  destruct Hdec as [Hall | Hnot].
  - right. split; [exact Hport |]. split; [exact Hall |].
    by apply codec_flash_all_validated.
  - left. split; [exact Hport |].
    destruct (codec_first_absent h _ Hnot) as (pre & p & d & post & Hsplit & Hpre & Hp).
    exists pre, p, d, post. repeat split; try assumption.
    exact (codec_flash_all_missing str h env pre p d post Hport Hsplit Hpre Hp).
Qed.


Lemma codec_flash_all_raises env x :
  value (Codec.flash_all str h env) = inr x -> exists name, x = OtherException name.
Proof.
  destruct (codec_flash_all_cases env)
    as [(_ & ->) | [(_ & pre & p & d & post & _ & _ & _ & ->) | (_ & _ & ->)]];
    unfold after; cbn [value]; intros Hx; apply say_value_inr in Hx as [-> | Hx];
    try (by exists "UnicodeEncodeError"); try discriminate Hx.
  cbn [value] in Hx. by apply codec_finish_raises in Hx.
Qed.

(** [Codec.flash_all] calls [subprocess.run] once, on the command it built,
    when the port is set, the artifacts exist and the two announcement lines
    are encoded; otherwise not at all. *)
Lemma codec_flash_all_commands env :
  (getenv env "ESPPORT" "" <> "" /\ Forall (here h) required_files /\
   encodes h (announce_lines (command_of env) "Flashing all partitions") /\
   commands (trace (Codec.flash_all str h env)) = [command_of env]) \/
  (~ (getenv env "ESPPORT" "" <> "" /\ Forall (here h) required_files /\
      encodes h (announce_lines (command_of env) "Flashing all partitions")) /\
   commands (trace (Codec.flash_all str h env)) = []).
Proof.
  destruct (codec_flash_all_cases env)
    as [(Hno & ->)
        | [(Hport & pre & p & d & post & Hsplit & Hpre & Hp & ->)
           | (Hport & Hall & ->)]];
    unfold after; cbn [trace].
  - right. split; [intros (Hport & _); contradiction |].
    destruct (say_commands (Codec.stdout_encodes h) missing_port_lines env (Res (inl false) env []))
      as [-> | (_ & ->)]; reflexivity.
  - right. split.
    + intros (_ & Hall & _). rewrite Hsplit in Hall.
      apply Forall_app in Hall as [_ Hall]. inversion Hall as [| ? ? Hhere _]; subst.
      unfold here in Hhere. cbn in Hhere. congruence.
    + rewrite !commands_app, commands_probing. cbn [commands omap app].
      destruct (say_commands (Codec.stdout_encodes h) (missing_file_lines p d) env
                  (Res (inl false) env []))
        as [-> | (_ & ->)]; reflexivity.
  - rewrite commands_app, commands_probing. cbn [app].
    match goal with
    | |- context [say (Codec.stdout_encodes h) ?l env ?k] =>
        destruct (say_commands (Codec.stdout_encodes h) l env k) as [Hc | (Henc & Hc)]
    end.
    + right. split; [| exact Hc].
      intros (_ & _ & Henc). rewrite (say_encodes _ _ _ _ Henc) in Hc.
      unfold after in Hc. cbn [trace] in Hc.
      rewrite commands_app, commands_prints in Hc. discriminate Hc.
    + left. split; [exact Hport |]. split; [exact Hall |]. split; [exact Henc |].
      rewrite Hc. unfold after. cbn [trace app]. rewrite commands_spawn.
      by rewrite (prints_no_commands _ (codec_finish_prints str h _ _ _ _)).
Qed.

End CodecEnds.

Section CodecEntry.

Variable str : list string -> Z -> string.
Variable h : Codec.Host.


Lemma codec_close_prints env v : Forall is_print (trace (codec_close h env v)).
Proof.
  destruct v as [[|] | e]; cbn [codec_close]; try constructor;
    apply say_prints; constructor.
Qed.


Lemma codec_main_commands env port :
  Codec.parse_args_outcome h = Namespace port ->
  (~ encodes h banner_lines /\ commands (trace (Codec.main str h env)) = []) \/
  (encodes h banner_lines /\
   commands (trace (Codec.main str h env)) =
     commands (trace (Codec.flash_all str h (resolved_environ port env)))).
Proof.
  intros Hparse. rewrite (codec_main_parsed str h env port Hparse).
  unfold after at 1. cbn [trace]. rewrite commands_app, commands_override. cbn [app].
  destruct (encodes_dec h banner_lines) as [Hb | Hb].
  - right. split; [exact Hb |]. rewrite (say_encodes _ _ _ _ Hb).
    unfold after. cbn [trace]. rewrite !commands_app, commands_prints. cbn [app].
    rewrite ?commands_override, (prints_no_commands _ (codec_close_prints _ _)).
    cbn [app]. apply app_nil_r.
  - left. split; [exact Hb |]. rewrite ?commands_app, ?commands_override. cbn [app].
    by apply say_stops.
Qed.

End CodecEntry.

(** ** The outcome of the flashing tool, with encoding and decoding *)







(** ** Determinism, with encoding and decoding *)

(** Where printing stops does not depend on what would have followed. *)
Lemma say_cut {A B} enc1 enc2 lines env1 env2 (k1 : res A) (k2 : res B) :
  (forall s, enc1 s = enc2 s) ->
  ~ Forall (fun s => enc1 s = true) lines ->
  trace (say enc1 lines env1 k1) = trace (say enc2 lines env2 k2) /\
  value (say enc1 lines env1 k1) = inr (OtherException "UnicodeEncodeError") /\
  value (say enc2 lines env2 k2) = inr (OtherException "UnicodeEncodeError").
Proof.
  intros Hext. induction lines as [| s rest IH]; intros Hno.
  - exfalso. apply Hno. constructor.
  - cbn [say]. rewrite <- Hext. destruct (enc1 s) eqn:Hs; [| by cbn].
    destruct IH as (Ht & Hv1 & Hv2).
    { intros Hrest. apply Hno. by constructor. }
    unfold after. cbn [value trace]. by rewrite Ht.
Qed.

Lemma say_same {A} enc1 enc2 lines env1 env2 (k1 k2 : res A) :
  (forall s, enc1 s = enc2 s) ->
  value k1 = value k2 -> trace k1 = trace k2 ->
  value (say enc1 lines env1 k1) = value (say enc2 lines env2 k2) /\
  trace (say enc1 lines env1 k1) = trace (say enc2 lines env2 k2).
Proof.
  intros Hext Hv Ht. induction lines as [| s rest [IHv IHt]]; cbn [say]; [by split |].
  rewrite <- Hext. destruct (enc1 s); [| by split].
  unfold after. cbn [value trace]. by rewrite IHv, IHt.
Qed.

Lemma codec_finish_same str h1 h2 cmd d env1 env2 o :
  (forall s, Codec.stdout_encodes h1 s = Codec.stdout_encodes h2 s) ->
  value (codec_finish str h1 cmd d env1 o) = value (codec_finish str h2 cmd d env2 o) /\
  trace (codec_finish str h1 cmd d env1 o) = trace (codec_finish str h2 cmd d env2 o).
Proof.
  intros Hext. destruct o as [rc [out err |] | name]; cbn [codec_finish]; try by split.
  destruct (rc =? 0); by apply say_same.
Qed.

Lemma codec_close_same h1 h2 env1 env2 v :
  (forall s, Codec.stdout_encodes h1 s = Codec.stdout_encodes h2 s) ->
  value (codec_close h1 env1 v) = value (codec_close h2 env2 v) /\
  trace (codec_close h1 env1 v) = trace (codec_close h2 env2 v).
Proof.
  intros Hext. destruct v as [[|] | e]; cbn [codec_close]; try by split.
  - by apply say_same.
  - by apply say_same.
Qed.

Section CodecAgreement.

Variable str : list string -> Z -> string.
Variables h1 h2 : Codec.Host.
Variables e1 e2 : gmap string string.

Hypothesis same_config : forall k, k ∈ config_names -> e1 !! k = e2 !! k.
Hypothesis same_files :
  forall p, p ∈ required_files.*1 -> Codec.os_path_exists h1 p = Codec.os_path_exists h2 p.
Hypothesis same_stdout :
  forall s, Codec.stdout_encodes h1 s = Codec.stdout_encodes h2 s.


Lemma codec_same_here files :
  files.*1 ⊆ required_files.*1 -> Forall (here h1) files -> Forall (here h2) files.
Proof.
  intros Hsub Hall. apply Forall_forall. intros [p d] Hin.
  rewrite Forall_forall in Hall. specialize (Hall _ Hin).
  unfold here in *. cbn in *. rewrite <- same_files; [exact Hall |].
  apply Hsub. apply list_elem_of_fmap. by exists (p, d).
Qed.

Lemma codec_flash_all_agree :
  let r1 := Codec.flash_all str h1 e1 in
  let r2 := Codec.flash_all str h2 e2 in
  (value r1 = value r2 /\ trace r1 = trace r2 /\ commands (trace r1) = []) \/
  (exists before after1 after2,
     trace r1 = before ++ SubprocessRun (command_of e1) :: after1 /\
     trace r2 = before ++ SubprocessRun (command_of e1) :: after2 /\
     commands before = [] /\ commands after1 = [] /\ commands after2 = [] /\
     (Codec.child h1 (command_of e1) = Codec.child h2 (command_of e1) ->
      after1 = after2 /\ value r1 = value r2)).
Proof.
  intros r1 r2. subst r1 r2.
  pose proof (same_command e1 e2 same_config) as Hcmd.
  assert (Hport : getenv e1 "ESPPORT" "" = getenv e2 "ESPPORT" "").
  { apply same_getenv; [exact same_config |]. unfold config_names. apply list_elem_of_here. }
  destruct (codec_flash_all_cases str h1 e1)
    as [(Hno & ->)
        | [(Hne & pre & p & d & post & Hsplit & Hpre & Hp & ->)
           | (Hne & Hall & ->)]].
  - left. rewrite Hport in Hno. rewrite (codec_flash_all_no_port str h2 e2 Hno).
    destruct (say_same (Codec.stdout_encodes h1) (Codec.stdout_encodes h2)
                missing_port_lines e1 e2 (Res (inl false) e1 []) (Res (inl false) e2 [])
                same_stdout eq_refl eq_refl) as [Hv Ht].
    split; [exact Hv |]. split; [exact Ht |].
    by destruct (say_commands (Codec.stdout_encodes h1) missing_port_lines e1
                   (Res (inl false) e1 [])) as [-> | (_ & ->)].
  - left. rewrite Hport in Hne.
    assert (Hpre2 : Forall (here h2) pre).
    { apply codec_same_here; [| exact Hpre]. rewrite Hsplit, fmap_app.
      intros x Hx. apply elem_of_app. by left. }
    assert (Hp2 : Codec.os_path_exists h2 p = false).
    { rewrite <- same_files; [exact Hp |]. rewrite Hsplit, fmap_app.
      apply elem_of_app. right. cbn. apply list_elem_of_here. }
    rewrite (codec_flash_all_missing str h2 e2 pre p d post Hne Hsplit Hpre2 Hp2).
    destruct (say_same (Codec.stdout_encodes h1) (Codec.stdout_encodes h2)
                (missing_file_lines p d) e1 e2
                (Res (inl false) e1 []) (Res (inl false) e2 [])
                same_stdout eq_refl eq_refl) as [Hv Ht].
    unfold after. cbn [value trace]. split; [exact Hv |]. split; [by rewrite Ht |].
    rewrite !commands_app, commands_probing. cbn [commands omap app].
    by destruct (say_commands (Codec.stdout_encodes h1) (missing_file_lines p d) e1
                   (Res (inl false) e1 [])) as [-> | (_ & ->)].
  - assert (Hall2 : Forall (here h2) required_files) by (by apply codec_same_here).
    rewrite Hport in Hne. rewrite (codec_flash_all_validated str h2 e2 Hne Hall2).
    rewrite <- Hcmd.
    set (lines := announce_lines (command_of e1) "Flashing all partitions").
    destruct (decide (Forall (fun s => Codec.stdout_encodes h1 s = true) lines))
      as [Ha | Ha].
    + right.
      assert (Ha2 : Forall (fun s => Codec.stdout_encodes h2 s = true) lines).
      { eapply Forall_impl; [exact Ha |]. intros s Hs. by rewrite <- same_stdout. }
      rewrite (say_encodes _ _ _ _ Ha), (say_encodes _ _ _ _ Ha2).
      unfold after. cbn [value trace].
      exists ((PathExists <$> required_files.*1) ++ (Print <$> lines)).
      do 2 eexists.
      split; [by rewrite <- app_assoc |]. split; [by rewrite <- app_assoc |].
      split; [by rewrite commands_app, commands_probing, commands_prints |].
      split; [apply prints_no_commands, codec_finish_prints |].
      split; [apply prints_no_commands, codec_finish_prints |].
      intros ->.
      destruct (codec_finish_same str h1 h2 (command_of e1) "Flashing all partitions"
                  e1 e2 (Codec.child h2 (command_of e1)) same_stdout) as [Hv Ht].
      by split.
    + left.
      match goal with
      | |- context [say (Codec.stdout_encodes h1) lines e1 ?k1] =>
          match goal with
          | |- context [say (Codec.stdout_encodes h2) lines e2 ?k2] =>
              set (K1 := k1); set (K2 := k2);
              destruct (say_cut _ _ lines e1 e2 K1 K2 same_stdout Ha) as (Ht & Hv1 & Hv2);
              pose proof (say_stops _ lines e1 K1 Ha) as (_ & _ & Hc & _)
          end
      end.
      unfold after. cbn [value trace].
      split; [by rewrite Hv1, Hv2 |]. split; [by rewrite Ht |].
      by rewrite commands_app, commands_probing, Hc.
Qed.

End CodecAgreement.

(** C10, as amended. Two runs with the same parsed arguments, the same
    values of the five configuration variables, the same answers of the
    file system on the five artifact paths and the same standard output
    perform the same effects up to and including the spawn: they build the
    same command list and take the same validation branch.  When the child
    also answers that command alike, the two runs print the same, end alike
    and exit with the same status. *)
Theorem runs_agree str h1 h2 env1 env2 :
  Codec.parse_args_outcome h1 = Codec.parse_args_outcome h2 ->
  (forall k, k ∈ config_names -> env1 !! k = env2 !! k) ->
  (forall p, p ∈ required_files.*1 ->
             Codec.os_path_exists h1 p = Codec.os_path_exists h2 p) ->
  (forall s, Codec.stdout_encodes h1 s = Codec.stdout_encodes h2 s) ->
  commands (trace (Codec.main str h1 env1)) = commands (trace (Codec.main str h2 env2)) /\
  up_to_spawn (trace (Codec.main str h1 env1))
    = up_to_spawn (trace (Codec.main str h2 env2)) /\
  ((forall cmd, cmd ∈ commands (trace (Codec.main str h1 env1)) ->
                Codec.child h1 cmd = Codec.child h2 cmd) ->
   trace (Codec.main str h1 env1) = trace (Codec.main str h2 env2) /\
   value (Codec.main str h1 env1) = value (Codec.main str h2 env2) /\
   exit_status (Codec.main str h1 env1) = exit_status (Codec.main str h2 env2)).
Proof.
  intros Hparse Henv Hfiles Hout.
  assert (Hsame : forall m1 m2 : res unit,
            trace m1 = trace m2 -> value m1 = value m2 ->
            commands (trace m1) = commands (trace m2) /\
            up_to_spawn (trace m1) = up_to_spawn (trace m2) /\
            ((forall cmd, cmd ∈ commands (trace m1) ->
                          Codec.child h1 cmd = Codec.child h2 cmd) ->
             trace m1 = trace m2 /\ value m1 = value m2 /\
             exit_status m1 = exit_status m2)).
  { intros m1 m2 Ht Hv. unfold exit_status. by rewrite Ht, Hv. }
  destruct (Codec.parse_args_outcome h1) as [port | status] eqn:Hp1; symmetry in Hparse.
  2: { rewrite (codec_main_parser_exit str h1 env1 status Hp1),
         (codec_main_parser_exit str h2 env2 status Hparse). by apply Hsame. }
  assert (Hcfg : forall k, k ∈ config_names ->
                   resolved_environ port env1 !! k = resolved_environ port env2 !! k).
  { intros k Hk. rewrite !resolved_environ_eq.
    destruct port as [[| a s] |]; auto.
    destruct (decide (k = "ESPPORT")) as [-> | Hne].
    - by rewrite !lookup_insert_eq.
    - rewrite !lookup_insert_ne by done. auto. }
  assert (Hov : trace (override_port port env1) = trace (override_port port env2)).
  { rewrite !override_port_eq. by destruct port as [[| a s] |]. }
  rewrite (codec_main_parsed str h1 env1 port Hp1),
    (codec_main_parsed str h2 env2 port Hparse), Hov.
  set (t0 := trace (override_port port env2)).
  assert (Ht0 : commands t0 = []) by apply commands_override.
  set (e1 := resolved_environ port env1). set (e2 := resolved_environ port env2).
  set (r1 := Codec.flash_all str h1 e1). set (r2 := Codec.flash_all str h2 e2).
  set (c1 := codec_close h1 (environ_out r1) (value r1)).
  set (c2 := codec_close h2 (environ_out r2) (value r2)).
  destruct (decide (Forall (fun s => Codec.stdout_encodes h1 s = true) banner_lines))
    as [Hb | Hb].
  2: { set (K1 := after (trace r1) c1). set (K2 := after (trace r2) c2).
       destruct (say_cut _ _ banner_lines e1 e2 K1 K2 Hout Hb) as (Ht & Hv1 & Hv2).
       apply Hsame; unfold after; cbn [value trace]; [by rewrite Ht | by rewrite Hv1, Hv2]. }
  assert (Hb2 : Forall (fun s => Codec.stdout_encodes h2 s = true) banner_lines).
  { eapply Forall_impl; [exact Hb |]. intros s Hs. by rewrite <- Hout. }
  rewrite (say_encodes _ _ _ _ Hb), (say_encodes _ _ _ _ Hb2).
  unfold after. cbn [value trace].
  assert (Hc1 : commands (trace c1) = []) by apply prints_no_commands, codec_close_prints.
  assert (Hc2 : commands (trace c2) = []) by apply prints_no_commands, codec_close_prints.
  pose proof (codec_flash_all_agree str h1 h2 e1 e2 Hcfg Hfiles Hout) as Hagree.
  cbn zeta in Hagree. fold r1 r2 in Hagree.
  destruct Hagree
    as [(Hv & Ht & Hq)
        | (before & after1 & after2 & Ht1 & Ht2 & Hq & Ha1 & Ha2 & Hchild)].
  - destruct (codec_close_same h1 h2 (environ_out r1) (environ_out r2) (value r1) Hout)
      as [Hcv Hct].
    assert (Hcv' : value c1 = value c2) by (subst c1 c2; by rewrite <- Hv).
    assert (Hct' : trace c1 = trace c2) by (subst c1 c2; by rewrite <- Hv).
    set (m1 := Res (value c1) (environ_out c1)
                 (t0 ++ (Print <$> banner_lines) ++ trace r1 ++ trace c1)).
    set (m2 := Res (value c2) (environ_out c2)
                 (t0 ++ (Print <$> banner_lines) ++ trace r2 ++ trace c2)).
    apply (Hsame m1 m2); subst m1 m2; cbn [value trace]; [by rewrite Ht, Hct' | done].
  - rewrite Ht1, Ht2.
    assert (Hpre : commands (t0 ++ (Print <$> banner_lines) ++ before) = []).
    { by rewrite !commands_app, Ht0, commands_prints, Hq. }
    split; [| split].
    + by rewrite !commands_app, !commands_spawn, Ht0, commands_prints, Hq, Ha1, Ha2,
        Hc1, Hc2.
    + assert (Hshape : forall a c : list event,
                t0 ++ (Print <$> banner_lines)
                ++ (before ++ SubprocessRun (command_of e1) :: a) ++ c =
                (t0 ++ (Print <$> banner_lines) ++ before)
                ++ SubprocessRun (command_of e1) :: (a ++ c)).
      { intros a c. by rewrite <- !app_assoc. }
      rewrite !Hshape, !(up_to_spawn_quiet _ _ Hpre). reflexivity.
    + rewrite !commands_app, !commands_spawn, Ht0, commands_prints, Hq. cbn [app].
      intros Hsame_child.
      destruct Hchild as [-> Hv]; [apply Hsame_child, list_elem_of_here |].
      assert (Hcv' : value c1 = value c2).
      { subst c1 c2. rewrite <- Hv. apply codec_close_same, Hout. }
      assert (Hct' : trace c1 = trace c2).
      { subst c1 c2. rewrite <- Hv. apply codec_close_same, Hout. }
      unfold exit_status. cbn [value]. by rewrite Hct', Hcv'.
Qed.

Lemma runs_agree_witness :
  commands (trace (Codec.main plain_str (host tool_succeeds utf8) env_usb0)) =
  commands (trace (Codec.main plain_str (host tool_succeeds utf8)
                     (<["HOME" := "/root"]> env_usb0))) /\
  exit_status (Codec.main plain_str (host tool_succeeds utf8) env_usb0) =
  exit_status (Codec.main plain_str (host tool_succeeds utf8)
                 (<["HOME" := "/root"]> env_usb0)).
Proof.
  assert (H1 : Codec.parse_args_outcome (host tool_succeeds utf8)
               = Codec.parse_args_outcome (host tool_succeeds utf8)) by reflexivity.
  assert (H2 : forall k, k ∈ config_names ->
                 env_usb0 !! k = (<["HOME" := "/root"]> env_usb0) !! k).
  { intros k Hk. rewrite lookup_insert_ne; [reflexivity |].
    intros <-. revert Hk. unfold config_names. rewrite !elem_of_cons, elem_of_nil.
    intros [H | [H | [H | [H | [H | []]]]]]; discriminate. }
  assert (H3 : forall p, p ∈ required_files.*1 ->
                 Codec.os_path_exists (host tool_succeeds utf8) p
                 = Codec.os_path_exists (host tool_succeeds utf8) p) by reflexivity.
  assert (H4 : forall s, Codec.stdout_encodes (host tool_succeeds utf8) s
                         = Codec.stdout_encodes (host tool_succeeds utf8) s)
    by reflexivity.
  destruct (runs_agree plain_str (host tool_succeeds utf8) (host tool_succeeds utf8)
              env_usb0 (<["HOME" := "/root"]> env_usb0) H1 H2 H3 H4) as (Hc & _ & Hrest).
  split; [exact Hc |].
  apply Hrest. reflexivity.
Defined.

(** C10 as stated fails: two runs with the same arguments, the same
    environment, the same files and the same standard output, one with a
    tool that exits with status 0 and one with a tool that exits with status
    2, build the same command and end on different branches. *)
Lemma same_inputs_different_branches :
  Codec.parse_args_outcome (host tool_succeeds utf8)
    = Codec.parse_args_outcome (host tool_fails utf8) /\
  (forall p, Codec.os_path_exists (host tool_succeeds utf8) p
             = Codec.os_path_exists (host tool_fails utf8) p) /\
  (forall s, Codec.stdout_encodes (host tool_succeeds utf8) s
             = Codec.stdout_encodes (host tool_fails utf8) s) /\
  commands (trace (Codec.main plain_str (host tool_succeeds utf8) env_usb0)) =
  commands (trace (Codec.main plain_str (host tool_fails utf8) env_usb0)) /\
  value (Codec.flash_all plain_str (host tool_succeeds utf8) env_usb0) = inl true /\
  value (Codec.flash_all plain_str (host tool_fails utf8) env_usb0) = inl false /\
  exit_status (Codec.main plain_str (host tool_succeeds utf8) env_usb0) = 0 /\
  exit_status (Codec.main plain_str (host tool_fails utf8) env_usb0) = 1.
Proof.
  split; [reflexivity |]. split; [reflexivity |]. split; [reflexivity |].
  vm_compute. repeat split.
Qed.

(** * Further properties, with encoding and decoding *)

(** ** [run_command] on its own *)

(** X1. For any command and description, [Codec.run_command] leaves the
    environment alone and calls [subprocess.run] at most once: on exactly
    the command it was given when the two announcement lines are encoded,
    and not at all otherwise.  It returns [True] exactly when, besides, the
    child exits with status 0 with output that is text and the completion
    line is encoded; it returns [False] exactly when the child exits with
    another status with output that is text and the three lines of the
    report are encoded.  Whatever it raises is not [CalledProcessError]. *)
Theorem run_command_returns str h cmd d env :
  environ_out (Codec.run_command str h cmd d env) = env /\
  (encodes h (announce_lines cmd d) ->
   commands (trace (Codec.run_command str h cmd d env)) = [cmd]) /\
  (~ encodes h (announce_lines cmd d) ->
   commands (trace (Codec.run_command str h cmd d env)) = []) /\
  (value (Codec.run_command str h cmd d env) = inl true <->
   encodes h (announce_lines cmd d) /\
   exists out err,
     Codec.child h cmd = Codec.Exited 0 (Codec.Text out err) /\
     Codec.stdout_encodes h (completed_line d) = true) /\
  (value (Codec.run_command str h cmd d env) = inl false <->
   encodes h (announce_lines cmd d) /\
   exists rc out err,
     Codec.child h cmd = Codec.Exited rc (Codec.Text out err) /\ rc <> 0 /\
     encodes h (tool_failure_lines d (str cmd rc) out err)) /\
  (forall x, value (Codec.run_command str h cmd d env) = inr x ->
             exists name, x = OtherException name).
Proof.
  rewrite codec_run_command_eq.
  set (fin := codec_finish str h cmd d env (Codec.child h cmd)).
  assert (Hfin : commands (trace fin) = [])
    by apply prints_no_commands, codec_finish_prints.
  split; [| split; [| split; [| split; [| split]]]].
  - apply say_environ. cbn [environ_out]. apply codec_finish_environ.
  - intros Ha. rewrite (say_encodes _ _ _ _ Ha). unfold after. cbn [trace app].
    by rewrite commands_app, commands_prints, commands_spawn, Hfin.
  - intros Ha. by apply say_stops.
  - split.
    + intros Hv. apply say_value_inl in Hv as [Ha Hv]. cbn [value] in Hv.
      split; [exact Ha |]. by apply codec_finish_true in Hv.
    + intros (Ha & Hex). rewrite (say_encodes _ _ _ _ Ha). unfold after. cbn [value].
      by apply codec_finish_true.
  - split.
    + intros Hv. apply say_value_inl in Hv as [Ha Hv]. cbn [value] in Hv.
      split; [exact Ha |]. by apply codec_finish_false in Hv.
    + intros (Ha & Hex). rewrite (say_encodes _ _ _ _ Ha). unfold after. cbn [value].
      by apply codec_finish_false.
  - intros x Hx. apply say_value_inr in Hx as [-> | Hx].
    + by exists "UnicodeEncodeError".
    + cbn [value] in Hx. by apply codec_finish_raises in Hx.
Qed.

(** ** When [subprocess.run] is called, and what the exit status tells *)

(** X3. [subprocess.run] is called if and only if the arguments were
    parsed, the port resolved after the override is not empty, all five
    artifact files exist, and the standard output encodes the two lines of
    the banner and the two announcement lines, which are printed first. *)
Theorem subprocess_run_iff str h env :
  commands (trace (Codec.main str h env)) <> [] <->
  exists port,
    Codec.parse_args_outcome h = Namespace port /\
    getenv (resolved_environ port env) "ESPPORT" "" <> "" /\
    Forall (fun f => Codec.os_path_exists h f.1 = true) required_files /\
    encodes h (banner_lines
               ++ announce_lines (command_of (resolved_environ port env))
                    "Flashing all partitions").
Proof.
  split.
  - intros Hspawn.
    destruct (Codec.parse_args_outcome h) as [port | status] eqn:Hparse.
    2: { by rewrite (codec_main_parser_exit str h env status Hparse) in Hspawn. }
    exists port. split; [reflexivity |].
    destruct (codec_main_commands str h env port Hparse) as [(_ & Hc) | (Hb & Hc)];
      [by rewrite Hc in Hspawn |].
    rewrite Hc in Hspawn.
    destruct (codec_flash_all_commands str h (resolved_environ port env))
      as [(Hport & Hall & Ha & _) | (_ & Hq)]; [| by rewrite Hq in Hspawn].
    split; [exact Hport |]. split; [exact Hall |]. apply encodes_app. by split.
  - intros (port & Hparse & Hport & Hall & Henc).
    apply encodes_app in Henc as [Hb Ha].
    destruct (codec_main_commands str h env port Hparse) as [(Hnb & _) | (_ & ->)];
      [contradiction |].
    destruct (codec_flash_all_commands str h (resolved_environ port env))
      as [(_ & _ & _ & ->) | (Hnot & _)]; [discriminate |].
    exfalso. apply Hnot. by repeat split.
Qed.



(** ** What a successful tool wrote *)

Lemma codec_close_ext h1 h2 env v :
  (forall s, Codec.stdout_encodes h1 s = Codec.stdout_encodes h2 s) ->
  codec_close h1 env v = codec_close h2 env v.
Proof.
  intros Hext. destruct v as [[|] | e]; cbn [codec_close]; try reflexivity;
    by apply say_ext.
Qed.

(** X7. The text captured from a tool that exits with status 0 is dropped:
    on the same standard output, two runs that differ only in the text the
    successful tool wrote are the same run. *)
Theorem successful_output_dropped str h1 h2 env port out1 err1 out2 err2 :
  Codec.parse_args_outcome h1 = Namespace port ->
  Codec.parse_args_outcome h2 = Namespace port ->
  (forall s, Codec.stdout_encodes h1 s = Codec.stdout_encodes h2 s) ->
  getenv (resolved_environ port env) "ESPPORT" "" <> "" ->
  Forall (fun f => Codec.os_path_exists h1 f.1 = true) required_files ->
  Forall (fun f => Codec.os_path_exists h2 f.1 = true) required_files ->
  Codec.child h1 (command_of (resolved_environ port env))
    = Codec.Exited 0 (Codec.Text out1 err1) ->
  Codec.child h2 (command_of (resolved_environ port env))
    = Codec.Exited 0 (Codec.Text out2 err2) ->
  Codec.main str h1 env = Codec.main str h2 env.
Proof.
  intros Hp1 Hp2 Hout Hport Hall1 Hall2 Hc1 Hc2.
  assert (Hrun : Codec.flash_all str h1 (resolved_environ port env)
                 = Codec.flash_all str h2 (resolved_environ port env)).
  { rewrite (codec_flash_all_validated str h1 _ Hport Hall1),
      (codec_flash_all_validated str h2 _ Hport Hall2), Hc1, Hc2.
    cbn [codec_finish Z.eqb].
    by rewrite !(say_ext (Codec.stdout_encodes h1) (Codec.stdout_encodes h2) _ _ _ Hout). }
  rewrite (codec_main_parsed str h1 env port Hp1), (codec_main_parsed str h2 env port Hp2).
  rewrite Hrun, (codec_close_ext h1 h2 _ _ Hout).
  by rewrite !(say_ext (Codec.stdout_encodes h1) (Codec.stdout_encodes h2) _ _ _ Hout).
Qed.

Lemma successful_output_dropped_witness :
  Codec.child (host tool_succeeds utf8) (command_of (resolved_environ None env_usb0))
    = Codec.Exited 0 (Codec.Text "Hash of data verified." "") /\
  Codec.child (host (Codec.Exited 0 (Codec.Text "Leaving..." "warning")) utf8)
    (command_of (resolved_environ None env_usb0))
    = Codec.Exited 0 (Codec.Text "Leaving..." "warning") /\
  Codec.main plain_str (host tool_succeeds utf8) env_usb0 =
  Codec.main plain_str (host (Codec.Exited 0 (Codec.Text "Leaving..." "warning")) utf8)
    env_usb0.
Proof.
  split; [reflexivity |]. split; [reflexivity |].
  apply (successful_output_dropped plain_str (host tool_succeeds utf8)
           (host (Codec.Exited 0 (Codec.Text "Leaving..." "warning")) utf8) env_usb0
           None "Hash of data verified." "" "Leaving..." "warning");
    [ reflexivity | reflexivity | reflexivity | vm_compute; discriminate
    | repeat constructor | repeat constructor | reflexivity | reflexivity ].
Defined.

(** ** When [sys.exit(1)] is reached *)

Lemma codec_flash_all_false str h env :
  value (Codec.flash_all str h env) = inl false ->
  getenv env "ESPPORT" "" = "" \/
  (getenv env "ESPPORT" "" <> "" /\
   Exists (fun f => Codec.os_path_exists h f.1 = false) required_files) \/
  (getenv env "ESPPORT" "" <> "" /\
   Forall (fun f => Codec.os_path_exists h f.1 = true) required_files /\
   exists rc out err,
     Codec.child h (command_of env) = Codec.Exited rc (Codec.Text out err) /\ rc <> 0).
Proof.
  destruct (codec_flash_all_cases str h env)
    as [(Hno & ->)
        | [(Hport & pre & p & d & post & Hsplit & Hpre & Hp & ->)
           | (Hport & Hall & ->)]]; intros Hv.
  - by left.
  - right. left. split; [exact Hport |].
    rewrite Hsplit. apply Exists_app. right. by apply Exists_cons_hd.
  - right. right. split; [exact Hport |]. split; [exact Hall |].
    unfold after in Hv. cbn [value] in Hv.
    apply say_value_inl in Hv as [_ Hv]. cbn [value] in Hv.
    apply codec_finish_false in Hv as (rc & out & err & Hchild & Hrc & _).
    by exists rc, out, err.
Qed.

(** X8. [sys.exit(1)] is reached only in the three failure cases: the port
    is empty, or the port is set and an artifact is absent, or validation
    passed and the tool exited with a non-zero status and output that is
    text; the last effect of such a run is the line "Flashing failed!".  On
    a standard output that encodes every line, each of the three cases does
    reach [sys.exit(1)]. *)
Theorem sys_exit_on_failure str h env port :
  Codec.parse_args_outcome h = Namespace port ->
  let failed :=
    getenv (resolved_environ port env) "ESPPORT" "" = "" \/
    (getenv (resolved_environ port env) "ESPPORT" "" <> "" /\
     Exists (fun f => Codec.os_path_exists h f.1 = false) required_files) \/
    (getenv (resolved_environ port env) "ESPPORT" "" <> "" /\
     Forall (fun f => Codec.os_path_exists h f.1 = true) required_files /\
     exists rc out err,
       Codec.child h (command_of (resolved_environ port env))
         = Codec.Exited rc (Codec.Text out err) /\ rc <> 0) in
  (value (Codec.main str h env) = inr (SystemExit 1) ->
   failed /\
   last (trace (Codec.main str h env))
     = Some (Print (nl +:+ ballot_x +:+ " Flashing failed!"))) /\
  ((forall s, Codec.stdout_encodes h s = true) ->
   failed -> value (Codec.main str h env) = inr (SystemExit 1)).
Proof.
  intros Hparse failed. rewrite (codec_main_parsed str h env port Hparse).
  set (e := resolved_environ port env) in *.
  set (r := Codec.flash_all str h e).
  split.
  - unfold after at 1. cbn [value trace]. intros Hv.
    apply say_value_exit in Hv as [Hb Hv]. cbn [value] in Hv.
    rewrite (say_encodes _ _ _ _ Hb). unfold after. cbn [trace].
    destruct (value r) as [[|] | x] eqn:Hr; cbn [codec_close] in Hv |- *.
    + apply say_value_exit in Hv as [_ Hv]. discriminate Hv.
    + apply say_value_exit in Hv as [Hl _].
      split; [by apply (codec_flash_all_false str h e) |].
      rewrite (say_encodes _ _ _ _ Hl). unfold after. cbn [trace].
      rewrite app_nil_r, !app_assoc. apply last_snoc.
    + subst r. apply codec_flash_all_raises in Hr as [name ->]. discriminate Hv.
  - intros Hall Hfailed.
    assert (Henc : forall lines, Forall (fun s => Codec.stdout_encodes h s = true) lines).
    { intros lines. apply Forall_forall. auto. }
    assert (Hr : value r = inl false).
    { subst r. destruct Hfailed as [Hno | [(Hport & Hex) | (Hport & Hfiles & Htool)]].
      - rewrite (codec_flash_all_no_port str h e Hno), (say_encodes _ _ _ _ (Henc _)).
        reflexivity.
      - destruct (codec_flash_all_cases str h e)
          as [(Hno & _) | [(_ & pre & p & d & post & _ & _ & _ & ->) | (_ & Hfiles & _)]].
        + contradiction.
        + by rewrite (say_encodes _ _ _ _ (Henc _)).
        + exfalso. apply Exists_exists in Hex as (f & Hin & Hf).
          rewrite Forall_forall in Hfiles. specialize (Hfiles f Hin). cbn in Hfiles.
          congruence.
      - destruct Htool as (rc & out & err & Hchild & Hrc).
        rewrite (codec_flash_all_validated str h e Hport Hfiles),
          (say_encodes _ _ _ _ (Henc _)).
        unfold after. cbn [value]. apply codec_finish_false.
        exists rc, out, err. split; [exact Hchild |]. split; [exact Hrc | apply Henc]. }
    rewrite (say_encodes _ _ _ _ (Henc _)). unfold after. cbn [value].
    rewrite Hr. cbn [codec_close]. by rewrite (say_encodes _ _ _ _ (Henc _)).
Qed.

Lemma sys_exit_on_failure_witness :
  Codec.parse_args_outcome (host tool_fails utf8) = Namespace None /\
  value (Codec.main plain_str (host tool_fails utf8) env_usb0) = inr (SystemExit 1) /\
  last (trace (Codec.main plain_str (host tool_fails utf8) env_usb0))
    = Some (Print (nl +:+ ballot_x +:+ " Flashing failed!")).
Proof.
  assert (H1 : Codec.parse_args_outcome (host tool_fails utf8) = Namespace None)
    by reflexivity.
  destruct (sys_exit_on_failure plain_str (host tool_fails utf8) env_usb0 None H1)
    as [Hto Hfrom].
  assert (Hv : value (Codec.main plain_str (host tool_fails utf8) env_usb0)
               = inr (SystemExit 1)).
  { apply Hfrom; [reflexivity |]. right. right.
    split; [vm_compute; discriminate |]. split; [repeat constructor |].
    exists 2, "Connecting...", "A fatal error occurred". split; [reflexivity | lia]. }
  split; [exact H1 |]. split; [exact Hv |]. exact (proj2 (Hto Hv)).
Defined.

(** ** The two scripts on a standard output that encodes every line *)

Section Utf8.

Variable str : list string -> Z -> string.
Variable h : Codec.Host.

Hypothesis encodes_all : forall s, Codec.stdout_encodes h s = true.





End Utf8.


